(** * Admin authentication of the Up2You backend (backend/src/index.ts)

    A shallow embedding of the Google OAuth start and callback handlers, the
    cookie parser, [readSession], [/api/auth/me] and the logout handler,
    together with the JavaScript values and string built-ins they use.

    Conventions of the embedding:
    - a JavaScript string is the [string] of its UTF-8 bytes, a lone
      surrogate being kept as the three bytes of its code point;
    - a thrown exception is the [Throw] result of the [Exc] monad; a handler
      threads the Express response object [res] as explicit state, and the
      state survives a throw, as it does in JavaScript;
    - the functions of the Node platform that are not string manipulation
      (HMAC, base64url, JSON, ToString, fetch) and the packages Express
      sends a response with (encodeurl for the Location header, etag and
      fresh for conditional requests) are the fields of the class
      [Platform] and the [fetch] argument of the callback; the theorems hold
      for every platform, and [Node] is an executable one used to run the
      handlers on concrete requests;
    - the body of a response is the entity the handler hands to Express;
      to a HEAD request the same status and headers go out without it. *)

From Stdlib Require Import ZArith Ascii String List Bool Lia.
From stdpp Require Import base strings gmap.
Import ListNotations.

Local Open Scope Z_scope.

(** ** Exceptions *)

Module JS.

(** The outcome of evaluating JavaScript that may throw; [Throw] carries
    the [message] of the error object. *)
Inductive Exc (A : Type) : Type :=
| Ret (a : A)
| Throw (message : string).

Arguments Ret {A} a.
Arguments Throw {A} message.

Definition bind {A B} (c : Exc A) (k : A -> Exc B) : Exc B :=
  match c with
  | Ret a => k a
  | Throw m => Throw m
  end.

(** [try { c } catch (e) { h e.message }] *)
Definition try_catch {A} (c : Exc A) (h : string -> Exc A) : Exc A :=
  match c with
  | Ret a => Ret a
  | Throw m => h m
  end.

(** ** Values *)

(** A double is kept as a decimal that denotes it: [Dec m e] is
    [m * 10^e]. The handlers observe a number through [truthy], [num_lt]
    and its printed form only, which depend on that value alone. *)
Inductive JSNumber : Type :=
| NaN
| Infinity (negative : bool)
| Dec (m e : Z).

(** The values that reach this program: what [JSON.parse] and the query
    parser produce, [undefined], and built-in methods read off a
    primitive ([JFunction], by name). An object is its own properties in
    insertion order. *)
#[warnings="-register-all"]
Inductive JSValue : Type :=
| JUndefined
| JNull
| JBool (b : bool)
| JNum (n : JSNumber)
| JStr (s : string)
| JArr (items : list JSValue)
| JObj (props : list (string * JSValue))
| JFunction (name : string).

Definition dec_is_zero (m : Z) : bool := m =? 0.

(** [a < b] on numbers. *)
Definition num_lt (a b : JSNumber) : bool :=
  match a, b with
  | NaN, _ | _, NaN => false
  | Infinity true, Infinity true => false
  | Infinity true, _ => true
  | Infinity false, _ => false
  | Dec _ _, Infinity negative => negb negative
  | Dec m1 e1, Dec m2 e2 =>
      let low := Z.min e1 e2 in
      m1 * 10 ^ (e1 - low) <? m2 * 10 ^ (e2 - low)
  end.

Definition num_of_Z (z : Z) : JSNumber := Dec z 0.

(** ToBoolean *)
Definition truthy (v : JSValue) : bool :=
  match v with
  | JUndefined | JNull => false
  | JBool b => b
  | JNum NaN => false
  | JNum (Infinity _) => true
  | JNum (Dec m _) => negb (dec_is_zero m)
  | JStr s => negb (String.eqb s "")
  | JArr _ | JObj _ | JFunction _ => true
  end.

Definition typeof (v : JSValue) : string :=
  match v with
  | JUndefined => "undefined"
  | JNull | JArr _ | JObj _ => "object"
  | JBool _ => "boolean"
  | JNum _ => "number"
  | JStr _ => "string"
  | JFunction _ => "function"
  end.

(** [a || b] *)
Definition or_else (a b : JSValue) : JSValue := if truthy a then a else b.

Fixpoint own_prop (k : string) (props : list (string * JSValue)) : JSValue :=
  match props with
  | [] => JUndefined
  | (k', v) :: rest => if String.eqb k' k then v else own_prop k rest
  end.

(** [v.k] for the property names this program reads: exp, email, name,
    sub, aud and id_token. None of them is inherited from
    [Object.prototype] or [Array.prototype]; a string inherits [sub]
    from [String.prototype], and a function has a [name]. Reading a
    property of [null] or [undefined] throws a TypeError. *)
Definition get_prop (v : JSValue) (k : string) : Exc JSValue :=
  match v with
  | JUndefined =>
      Throw ("Cannot read properties of undefined (reading '" +:+ k +:+ "')")
  | JNull =>
      Throw ("Cannot read properties of null (reading '" +:+ k +:+ "')")
  | JObj props => Ret (own_prop k props)
  | JStr _ => Ret (if String.eqb k "sub" then JFunction "sub" else JUndefined)
  | JFunction name => Ret (if String.eqb k "name" then JStr name else JUndefined)
  | JBool _ | JNum _ | JArr _ => Ret JUndefined
  end.

(** ** String built-ins *)

(** [s.startsWith(p)] *)
Fixpoint startsWith (s p : string) {struct p} : bool :=
  match p, s with
  | EmptyString, _ => true
  | String _ _, EmptyString => false
  | String b p', String a s' => Ascii.eqb a b && startsWith s' p'
  end.

Fixpoint indexOf_from (c : ascii) (s : string) (i : Z) : Z :=
  match s with
  | EmptyString => -1
  | String a s' => if Ascii.eqb a c then i else indexOf_from c s' (i + 1)
  end.

(** [s.indexOf(c)] for a search string of one character. *)
Definition indexOf (s : string) (c : ascii) : Z := indexOf_from c s 0.

(** [s.slice(start, stop)]; [stop = None] when the argument is omitted. *)
Definition slice (s : string) (start : Z) (stop : option Z) : string :=
  let len := Z.of_nat (String.length s) in
  let clamp i := if i <? 0 then Z.max (len + i) 0 else Z.min i len in
  let from := clamp start in
  let to := match stop with Some e => clamp e | None => len end in
  String.substring (Z.to_nat from) (Z.to_nat (Z.max (to - from) 0)) s.

(** [s.split(c)] for a separator of one character. *)
Fixpoint split (s : string) (c : ascii) : list string :=
  match s with
  | EmptyString => [EmptyString]
  | String a s' =>
      if Ascii.eqb a c then EmptyString :: split s' c
      else match split s' c with
           | piece :: pieces => String a piece :: pieces
           | [] => [String a EmptyString]
           end
  end.

Definition chars (codes : list Z) : list ascii :=
  map (fun n => ascii_of_nat (Z.to_nat n)) codes.

(** The characters [trim] removes (WhiteSpace and LineTerminator), each as
    its UTF-8 bytes: TAB, LF, VT, FF, CR, space, U+00A0, U+1680,
    U+2000..U+200A, U+2028, U+2029, U+202F, U+205F, U+3000 and U+FEFF. *)
Definition white_space : list (list ascii) :=
  map chars
    [[9]; [10]; [11]; [12]; [13]; [32]; [194; 160]; [225; 154; 128];
     [226; 128; 128]; [226; 128; 129]; [226; 128; 130]; [226; 128; 131];
     [226; 128; 132]; [226; 128; 133]; [226; 128; 134]; [226; 128; 135];
     [226; 128; 136]; [226; 128; 137]; [226; 128; 138]; [226; 128; 168];
     [226; 128; 169]; [226; 128; 175]; [226; 129; 159]; [227; 128; 128];
     [239; 187; 191]].

Fixpoint strip_prefix (p l : list ascii) : option (list ascii) :=
  match p, l with
  | [], _ => Some l
  | _ :: _, [] => None
  | b :: p', a :: l' => if Ascii.eqb a b then strip_prefix p' l' else None
  end.

(** The rest of [l] after one leading character of [ws], if it has one. *)
Fixpoint strip_one (ws : list (list ascii)) (l : list ascii)
  : option (list ascii) :=
  match ws with
  | [] => None
  | w :: ws' =>
      match strip_prefix w l with
      | Some rest => Some rest
      | None => strip_one ws' l
      end
  end.

Fixpoint strip_all (fuel : nat) (ws : list (list ascii)) (l : list ascii)
  : list ascii :=
  match fuel with
  | O => l
  | S fuel' =>
      match strip_one ws l with
      | Some rest => strip_all fuel' ws rest
      | None => l
      end
  end.

(** [s.trim()]: leading white space is stripped, then trailing white
    space, read from the end. *)
Definition trim (s : string) : string :=
  let l := list_ascii_of_string s in
  let l1 := strip_all (List.length l) white_space l in
  let l2 := strip_all (List.length l1) (map (@rev ascii) white_space) (rev l1) in
  string_of_list_ascii (rev l2).

Definition lower_char (a : ascii) : ascii :=
  let n := Z.of_nat (nat_of_ascii a) in
  if (65 <=? n) && (n <=? 90) then ascii_of_nat (Z.to_nat (n + 32)) else a.

(** [s.toLowerCase()] where the result can be an ASCII word: the letters
    A..Z and the Kelvin sign U+212A are the only characters whose lower
    case is ASCII; every other character is kept as it is. *)
Fixpoint toLowerCase (s : string) : string :=
  match s with
  | String "226" (String "132" (String "170" s')) => String "k" (toLowerCase s')
  | String a s' => String (lower_char a) (toLowerCase s')
  | EmptyString => EmptyString
  end.

End JS.

Import JS.

#[global] Instance Exc_bind : MBind Exc := fun A B k c => JS.bind c k.

(** ** URL encodings *)

Module URL.

Definition code (a : ascii) : Z := Z.of_nat (nat_of_ascii a).

Definition hex_digit (n : Z) : ascii :=
  ascii_of_nat (Z.to_nat (if n <? 10 then 48 + n else 55 + n)).

Definition percent_byte (a : ascii) : string :=
  String "%" (String (hex_digit (Z.shiftr (code a) 4))
                (String (hex_digit (Z.land (code a) 15)) EmptyString)).

Definition is_alnum (n : Z) : bool :=
  ((48 <=? n) && (n <=? 57)) || ((65 <=? n) && (n <=? 90))
  || ((97 <=? n) && (n <=? 122)).

Definition in_codes (n : Z) (codes : list Z) : bool :=
  existsb (Z.eqb n) codes.

(** A lone surrogate U+D800..U+DFFF is the byte 237 followed by a byte
    of 160 or more. *)
Fixpoint has_lone_surrogate (s : string) : bool :=
  match s with
  | EmptyString => false
  | String a s' =>
      match s' with
      | String b _ =>
          ((code a =? 237) && (160 <=? code b)) || has_lone_surrogate s'
      | EmptyString => false
      end
  end.

Fixpoint percent_encode (keep : list Z) (s : string) : string :=
  match s with
  | EmptyString => EmptyString
  | String a s' =>
      (if is_alnum (code a) || in_codes (code a) keep
       then String a EmptyString else percent_byte a)
      +:+ percent_encode keep s'
  end.

(** [encodeURIComponent(s)]: letters, digits and [- _ . ! ~ * ' ( )] are
    kept, every other byte of the UTF-8 form is escaped; a lone surrogate
    is a URIError. *)
Definition encodeURIComponent (s : string) : Exc string :=
  if has_lone_surrogate s then Throw "URI malformed"
  else Ret (percent_encode [45; 95; 46; 33; 126; 42; 39; 40; 41] s).

(** The conversion to a USVString: a lone surrogate becomes U+FFFD. *)
Fixpoint to_usv (s : string) : string :=
  match s with
  | String a (String b (String _ s') as s1) =>
      if (code a =? 237) && (160 <=? code b)
      then String "239" (String "191" (String "189" (to_usv s')))
      else String a (to_usv s1)
  | String a s' => String a (to_usv s')
  | EmptyString => EmptyString
  end.

(** The application/x-www-form-urlencoded serializer of URLSearchParams:
    letters, digits and [* - . _] are kept, a space becomes [+]. *)
Fixpoint form_component (s : string) : string :=
  match s with
  | EmptyString => EmptyString
  | String a s' =>
      (if is_alnum (code a) || in_codes (code a) [42; 45; 46; 95]
       then String a EmptyString
       else if code a =? 32 then "+" else percent_byte a)
      +:+ form_component s'
  end.

(** The characters the encodeurl package leaves alone in every release:
    [! & ' ( ) * + , - . / : ; = ? @ [ ] _ ~], digits and letters. *)
Definition url_char (n : Z) : bool :=
  (n =? 33) || ((38 <=? n) && (n <=? 59)) || (n =? 61)
  || ((63 <=? n) && (n <=? 91)) || (n =? 93) || (n =? 95)
  || ((97 <=? n) && (n <=? 122)) || (n =? 126).

Definition is_hex (n : Z) : bool :=
  ((48 <=? n) && (n <=? 57)) || ((65 <=? n) && (n <=? 70))
  || ((97 <=? n) && (n <=? 102)).

(** A string of such characters and of well-formed escapes, a percent
    sign followed by two hexadecimal digits. *)
Fixpoint url_clean (s : string) : bool :=
  match s with
  | EmptyString => true
  | String a s' =>
      if code a =? 37
      then match s' with
           | String h1 (String h2 _) =>
               is_hex (code h1) && is_hex (code h2) && url_clean s'
           | _ => false
           end
      else url_char (code a) && url_clean s'
  end.

(** [new URLSearchParams(entries).toString()] for entries that are
    strings. *)
Fixpoint URLSearchParams_toString (entries : list (string * string)) : string :=
  match entries with
  | [] => ""
  | [(k, v)] => form_component (to_usv k) +:+ "=" +:+ form_component (to_usv v)
  | (k, v) :: rest =>
      form_component (to_usv k) +:+ "=" +:+ form_component (to_usv v) +:+ "&"
      +:+ URLSearchParams_toString rest
  end.

End URL.

(** ** The Node platform *)

Class Platform : Type := {
  (** [crypto.createHmac('sha256', key).update(data).digest('base64url')] *)
  hmac_sha256_base64url : string -> string -> string;
  (** [Buffer.from(s).toString('base64url')] *)
  base64url_encode : string -> string;
  (** [Buffer.from(s, 'base64url').toString('utf8')] *)
  base64url_decode : string -> string;
  (** [JSON.parse(text)]; throws a SyntaxError on malformed text. *)
  JSON_parse : string -> Exc JSValue;
  (** [JSON.stringify(v)]; [None] is the result [undefined]. *)
  JSON_stringify : JSValue -> option string;
  (** [String(v)]; the conversion of an object to a primitive may throw. *)
  ToString : JSValue -> Exc string;
  (** [encodeUrl(url)] of the encodeurl package, the value [res.redirect]
      gives the Location header; it escapes what is not a URL character,
      through [encodeURI], which throws a URIError. *)
  encodeUrl : string -> Exc string;
  (** The entity tag Express computes for a body it sends:
      [etag(body, { weak: true })]. *)
  etag : string -> string;
  (** [fresh(req.headers, { etag })] of the fresh package, for a response
      with the entity tag [etag], if any, and no Last-Modified header. *)
  fresh_headers : gmap string string -> option string -> bool;
  ToString_string : forall s, ToString (JStr s) = Ret s;
  (** A string of URL characters is its own encoding. *)
  encodeUrl_clean : forall s, URL.url_clean s = true -> encodeUrl s = Ret s;
  (** A request without If-None-Match and If-Modified-Since is never
      fresh. *)
  fresh_unconditional : forall h tag,
    default "" (h !! "if-none-match") = "" ->
    default "" (h !! "if-modified-since") = "" ->
    fresh_headers h tag = false;
  (** [If-None-Match: *] alone matches every response. *)
  fresh_any : forall h tag,
    h !! "if-none-match" = Some "*" ->
    h !! "if-modified-since" = None ->
    h !! "cache-control" = None ->
    fresh_headers h tag = true
}.

(** ** Requests, responses and handlers *)

Module Express.

(** [process.env], the variables the handlers read. *)
Record Env : Type := {
  GOOGLE_CLIENT_ID : option string;
  GOOGLE_CLIENT_SECRET : option string;
  GOOGLE_REDIRECT_URI : option string;
  ADMIN_JWT_SECRET : option string;
  ADMIN_API_TOKEN : option string;
  NODE_ENV : option string
}.

(** [process.env.X || ''] *)
Definition or_empty (x : option string) : string := default "" x.

(** An incoming request: its method, its headers by lower-case name, and
    the parsed query object [req.query]. *)
Record Request : Type := {
  method : string;
  headers : gmap string string;
  query : gmap string JSValue
}.

(** [req.header(name)] *)
Definition req_header (req : Request) (name : string) : option string :=
  headers req !! toLowerCase name.

(** [req.query.name] *)
Definition req_query (req : Request) (name : string) : JSValue :=
  default JUndefined (query req !! name).

Record CookieOptions : Type := {
  httpOnly : bool;
  sameSite : string;
  secure : bool;
  path : string;
  maxAge : option Z
}.

(** One call [res.cookie(name, value, options)]. *)
Record SetCookie : Type := {
  cookie_name : string;
  cookie_value : string;
  cookie_options : CookieOptions
}.

(** What a response carries: nothing, a JSON document, or the Location
    header of a redirect. *)
Inductive Body : Type :=
| NoBody
| Json (v : JSValue)
| Redirect (location : string).

(** The state of the response object [res]. *)
Record Response : Type := {
  status : Z;
  cookies : list SetCookie;
  body : Body
}.

Definition fresh : Response := {| status := 200; cookies := []; body := NoBody |}.

(** A handler body: it updates [res] and returns or throws. *)
Definition Handler (A : Type) : Type := Response -> Response * Exc A.

Definition hret {A} (a : A) : Handler A := fun res => (res, Ret a).

Definition hbind {A B} (c : Handler A) (k : A -> Handler B) : Handler B :=
  fun res =>
    match c res with
    | (res', Ret a) => k a res'
    | (res', Throw m) => (res', Throw m)
    end.

(** Evaluation of an expression that may throw, inside a handler. *)
Definition eval {A} (c : Exc A) : Handler A := fun res => (res, c).

(** [try { c } catch (e) { h e.message }] around statements of a handler. *)
Definition htry {A} (c : Handler A) (h : string -> Handler A) : Handler A :=
  fun res =>
    match c res with
    | (res', Ret a) => (res', Ret a)
    | (res', Throw m) => h m res'
    end.

(** [res.status(code)] *)
Definition res_status (code : Z) : Handler unit :=
  fun res =>
    ({| status := code; cookies := cookies res; body := body res |}, Ret tt).

Section Send.

Context `{Platform}.

(** [req.fresh], read while the response has the status [code] and the
    entity tag [tag]: a GET or HEAD whose response has a 2xx or 304
    status is fresh when the fresh package says so of its headers. No
    handler of this program sets ETag or Last-Modified itself. *)
Definition req_fresh (req : Request) (code : Z) (tag : option string) : bool :=
  if negb (String.eqb (method req) "GET")
     && negb (String.eqb (method req) "HEAD")
  then false
  else if ((200 <=? code) && (code <? 300)) || (code =? 304)
       then fresh_headers (headers req) tag
       else false.

(** What [res.send] makes of the response [r] to [req] when [r] carries
    a JSON body: the text of the body gets its entity tag, a fresh
    request is answered 304, and a 204 or a 304 goes out without a
    body. *)
Definition sent (req : Request) (r : Response) : Response :=
  match body r with
  | Json v =>
      let code :=
        if req_fresh req (status r) (etag <$> JSON_stringify v)
        then 304 else status r in
      {| status := code; cookies := cookies r;
         body := if (code =? 204) || (code =? 304) then NoBody else Json v |}
  | NoBody | Redirect _ => r
  end.

(** [res.json(v)], which ends in [res.send]. *)
Definition res_json (req : Request) (v : JSValue) : Handler unit :=
  fun res =>
    (sent req {| status := status res; cookies := cookies res; body := Json v |},
     Ret tt).

(** [res.cookie(name, value, options)] *)
Definition res_cookie (name value : string) (options : CookieOptions)
  : Handler unit :=
  fun res =>
    ({| status := status res;
        cookies := cookies res ++
          [{| cookie_name := name; cookie_value := value;
              cookie_options := options |}];
        body := body res |}, Ret tt).

(** [res.redirect(url)], for a [url] other than the alias [back]: the
    Location header is [encodeUrl(url)] and the status 302; when the
    encoding throws, [res] is as it was. *)
Definition res_redirect (url : string) : Handler unit :=
  fun res =>
    match encodeUrl url with
    | Ret location =>
        ({| status := 302; cookies := cookies res; body := Redirect location |},
         Ret tt)
    | Throw message => (res, Throw message)
    end.

End Send.

(** A request to [fetch] and what comes back: [ok] and the outcome of
    [json()], which rejects when the body is not JSON. *)
Record FetchRequest : Type := {
  fetch_url : string;
  fetch_method : string;
  fetch_headers : list (string * string);
  fetch_body : option string
}.

Record FetchResponse : Type := {
  ok : bool;
  json : Exc JSValue
}.

End Express.

Import Express.

#[global] Instance Handler_bind : MBind Handler :=
  fun A B k c => Express.hbind c k.

(** ** The handlers of backend/src/index.ts *)

Section Handlers.

Context `{Platform}.

(** [{ error: message }] *)
Definition error_body (message : string) : JSValue :=
  JObj [("error", JStr message)].

(** The [state] of the start handler: [from] when the query value is a
    string that starts with a slash, the admin landing path otherwise. *)
Definition start_state (req : Request) : string :=
  let from := match req_query req "from" with JStr s => s | _ => "" end in
  let safeFrom := if startsWith from "/" then from else "" in
  if String.eqb safeFrom "" then "/admin" else safeFrom.

Definition start_params (clientId redirectUri state : string)
  : list (string * string) :=
  [("response_type", "code");
   ("client_id", clientId);
   ("redirect_uri", redirectUri);
   ("scope", "openid email profile");
   ("state", state);
   ("access_type", "offline");
   ("prompt", "consent")].

(** [app.get('/api/auth/google/start', ...)] *)
Definition start (env : Env) (req : Request) : Handler unit :=
  let clientId := or_empty (GOOGLE_CLIENT_ID env) in
  let redirectUri := or_empty (GOOGLE_REDIRECT_URI env) in
  let state := start_state req in
  if String.eqb clientId "" || String.eqb redirectUri ""
  then
    res_status 500 ;;
    res_json req (error_body "Google OAuth not configured")
  else
    let params := start_params clientId redirectUri state in
    let url := "https://accounts.google.com/o/oauth2/v2/auth?"
               +:+ URL.URLSearchParams_toString params in
    res_redirect url.

(** The session payload minted by the callback, in the order of the
    object literal. *)
Definition session_payload (sub email : string) (exp : Z) (name : string)
  : JSValue :=
  JObj [("sub", JStr sub); ("email", JStr email);
        ("exp", JNum (num_of_Z exp)); ("name", JStr name)].

(** The options of the session cookie, shared by mint and logout. *)
Definition session_cookie_options (env : Env) (age : option Z) : CookieOptions :=
  {| httpOnly := true;
     sameSite := "lax";
     secure := String.eqb (toLowerCase (or_empty (NODE_ENV env))) "production";
     path := "/";
     maxAge := age |}.

Definition token_request (code clientId clientSecret redirectUri : string)
  : FetchRequest :=
  {| fetch_url := "https://oauth2.googleapis.com/token";
     fetch_method := "POST";
     fetch_headers := [("Content-Type", "application/x-www-form-urlencoded")];
     fetch_body := Some (URL.URLSearchParams_toString
       [("code", code);
        ("client_id", clientId);
        ("client_secret", clientSecret);
        ("redirect_uri", redirectUri);
        ("grant_type", "authorization_code")]) |}.

Definition tokeninfo_request (encodedIdToken : string) : FetchRequest :=
  {| fetch_url := "https://oauth2.googleapis.com/tokeninfo?id_token="
                  +:+ encodedIdToken;
     fetch_method := "GET";
     fetch_headers := [];
     fetch_body := None |}.

(** The redirect target of the callback. *)
Definition callback_dest (state : JSValue) : string :=
  match state with
  | JStr s => if startsWith s "/" then s else "/admin"
  | _ => "/admin"
  end.

(** The exchange of the authorization code: the POST to the token
    endpoint and the JSON of its response. [fetch] is the network; it
    throws when the request fails. *)
Definition exchange_code (fetch : FetchRequest -> Exc FetchResponse)
    (code : JSValue) (clientId clientSecret redirectUri : string)
  : Exc (FetchResponse * JSValue) :=
  codeText ← ToString code;
  tokenRes ← fetch (token_request codeText clientId clientSecret redirectUri);
  tokenJson ← json tokenRes;
  Ret (tokenRes, tokenJson).

(** The identity assertion: the claims the tokeninfo endpoint returns
    for [tokenJson.id_token]. *)
Definition fetch_tokeninfo (fetch : FetchRequest -> Exc FetchResponse)
    (tokenJson : JSValue) : Exc (FetchResponse * JSValue) :=
  idToken ← get_prop tokenJson "id_token";
  idTokenText ← ToString idToken;
  encoded ← URL.encodeURIComponent idTokenText;
  infoRes ← fetch (tokeninfo_request encoded);
  info ← json infoRes;
  Ret (infoRes, info).

(** [String(info.aud)] *)
Definition audience (info : JSValue) : Exc string :=
  aud ← get_prop info "aud";
  ToString aud.

(** [String(info.k || '')] *)
Definition string_claim (info : JSValue) (k : string) : Exc string :=
  v ← get_prop info k;
  ToString (or_else v (JStr "")).

(** The statements of the callback inside [try]; [now] is [Date.now()],
    an integer, so that [now / 1000] is
    [Math.floor(Date.now() / 1000)]. *)
Definition callback_try (fetch : FetchRequest -> Exc FetchResponse)
    (env : Env) (now : Z) (req : Request) (code state : JSValue)
    (clientId clientSecret redirectUri adminJwtSecret : string)
  : Handler unit :=
  '(tokenRes, tokenJson) ←
    eval (exchange_code fetch code clientId clientSecret redirectUri);
  if negb (ok tokenRes)
  then
    res_status 401 ;;
    res_json req (JObj [("error", JStr "Google token exchange failed");
                        ("detail", tokenJson)])
  else
    '(infoRes, info) ← eval (fetch_tokeninfo fetch tokenJson);
    if negb (ok infoRes)
    then
      res_status 401 ;;
      res_json req (JObj [("error", JStr "Invalid Google ID token");
                          ("detail", info)])
    else
      audText ← eval (audience info);
      if negb (String.eqb audText clientId)
      then
        res_status 401 ;;
        res_json req (error_body "Mismatched audience")
      else
        email ← eval (string_claim info "email");
        sub ← eval (string_claim info "sub");
        if String.eqb email "" || String.eqb sub ""
        then
          res_status 401 ;;
          res_json req (error_body "Missing Google user info")
        else
          let exp := now / 1000 + 7 * 24 * 60 * 60 in
          name ← eval (string_claim info "name");
          let payload := session_payload sub email exp name in
          match JSON_stringify payload with
          | None =>
              eval (Throw "The first argument must be of type string or an instance of Buffer, ArrayBuffer, or Array or an Array-like Object. Received undefined")
          | Some json =>
              let b64 := base64url_encode json in
              let sig := hmac_sha256_base64url adminJwtSecret b64 in
              let token := b64 +:+ "." +:+ sig in
              res_cookie "admin_session" token
                (session_cookie_options env None) ;;
              res_redirect (callback_dest state)
          end.

(** [app.get('/api/auth/google/callback', ...)] *)
Definition callback (fetch : FetchRequest -> Exc FetchResponse)
    (env : Env) (now : Z) (req : Request) : Handler unit :=
  let code := or_else (req_query req "code") (JStr "") in
  let state := or_else (req_query req "state") (JStr "") in
  let clientId := or_empty (GOOGLE_CLIENT_ID env) in
  let clientSecret := or_empty (GOOGLE_CLIENT_SECRET env) in
  let redirectUri := or_empty (GOOGLE_REDIRECT_URI env) in
  let adminJwtSecret := or_empty (ADMIN_JWT_SECRET env) in
  if negb (truthy code) || String.eqb clientId ""
     || String.eqb clientSecret "" || String.eqb redirectUri ""
     || String.eqb adminJwtSecret ""
  then
    res_status 400 ;;
    res_json req (error_body "Invalid Google OAuth callback")
  else
    htry (callback_try fetch env now req code state clientId clientSecret
            redirectUri adminJwtSecret)
      (fun message =>
         res_status 500 ;;
         res_json req (JObj [("error", JStr "Google auth error");
                             ("message", JStr message)])).

(** [out[k] = v] on a plain object with string values: assigning a string
    to [__proto__] is ignored. *)
Definition set_key (k v : string) (out : gmap string string)
  : gmap string string :=
  if String.eqb k "__proto__" then out else <[k := v]> out.

(** The body of the [forEach] callback of [parseCookies]. *)
Definition parse_pair (out : gmap string string) (p : string)
  : gmap string string :=
  let i := indexOf p "=" in
  if i >? -1
  then
    let k := trim (slice p 0 (Some i)) in
    let v := trim (slice p (i + 1) None) in
    if negb (String.eqb k "") then set_key k v out else out
  else out.

Definition parseCookies (header : option string) : gmap string string :=
  let h := default "" header in
  fold_left parse_pair (split h ";") ∅.

(** [v < n], for [v] of type number. *)
Definition lt_number (v : JSValue) (n : JSNumber) : bool :=
  match v with
  | JNum a => num_lt a n
  | _ => false
  end.

(** The [try] block of [readSession]. *)
Definition read_payload (now : Z) (b64 : string) : Exc JSValue :=
  let json := base64url_decode b64 in
  payload ← JSON_parse json;
  exp1 ← get_prop payload "exp";
  if negb (truthy exp1) then Ret JNull
  else
    exp2 ← get_prop payload "exp";
    if negb (String.eqb (typeof exp2) "number") then Ret JNull
    else
      exp3 ← get_prop payload "exp";
      if lt_number exp3 (num_of_Z (now / 1000)) then Ret JNull
      else Ret payload.

Definition readSession (env : Env) (now : Z) (req : Request) : Exc JSValue :=
  let cookies := parseCookies (req_header req "cookie") in
  match cookies !! "admin_session" with
  | None => Ret JNull
  | Some token =>
      if String.eqb token "" then Ret JNull
      else
        let secret := or_empty (ADMIN_JWT_SECRET env) in
        if String.eqb secret "" then Ret JNull
        else
          let parts := split token "." in
          if negb (Nat.eqb (List.length parts) 2) then Ret JNull
          else
            let b64 := nth 0 parts "" in
            let sig := nth 1 parts "" in
            if String.eqb b64 "" || String.eqb sig "" then Ret JNull
            else
              let expectedSig := hmac_sha256_base64url secret b64 in
              if negb (String.eqb sig expectedSig) then Ret JNull
              else try_catch (read_payload now b64) (fun _ => Ret JNull)
  end.

Definition dev_user : JSValue :=
  JObj [("email", JStr "dev-admin@local"); ("name", JStr "Dev Admin");
        ("sub", JStr "dev-admin")].

(** The truth value of [expected && headerToken === expected]. *)
Definition header_ok (env : Env) (req : Request) : bool :=
  let headerToken := or_empty (req_header req "x-admin-token") in
  let expected := or_empty (ADMIN_API_TOKEN env) in
  negb (String.eqb expected "") && String.eqb headerToken expected.

(** [app.get('/api/auth/me', ...)] *)
Definition me (env : Env) (now : Z) (req : Request) : Handler unit :=
  session ← eval (readSession env now req);
  let headerOk := header_ok env req in
  if negb (truthy session) && negb headerOk
  then
    res_status 401 ;;
    res_json req (JObj [("authenticated", JBool false)])
  else if truthy session
  then
    email ← eval (get_prop session "email");
    name ← eval (get_prop session "name");
    sub ← eval (get_prop session "sub");
    res_json req (JObj [("authenticated", JBool true);
                        ("user", JObj [("email", email); ("name", name);
                                       ("sub", sub)])])
  else
    res_json req (JObj [("authenticated", JBool true); ("user", dev_user)]).

(** [app.post('/api/auth/logout', ...)] *)
Definition logout (env : Env) (req : Request) : Handler unit :=
  res_cookie "admin_session" "" (session_cookie_options env (Some 0)) ;;
  res_json req (JObj [("ok", JBool true)]).

(** The global error handler, which answers when a handler throws. *)
Definition error_handler (env : Env) (req : Request) (message : string)
  : Handler unit :=
  res_status 500 ;;
  res_json req
    (JObj [("error", JStr "Internal Server Error");
           ("message",
            JStr (if bool_decide (NODE_ENV env = Some "production")
                  then "An unexpected error occurred" else message))]).

(** The response Express sends to [req] for a handler started on a fresh
    [res]. *)
Definition respond (env : Env) (req : Request) (h : Handler unit) : Response :=
  fst (htry h (error_handler env req) fresh).

End Handlers.

(** ** An executable platform

    The platform functions as Node computes them, so that the handlers
    run on concrete requests. *)

Definition bytes_of_string (s : string) : list Z :=
  map (fun a => Z.of_nat (nat_of_ascii a)) (list_ascii_of_string s).

Definition string_of_bytes (l : list Z) : string :=
  string_of_list_ascii (map (fun n => ascii_of_nat (Z.to_nat n)) l).


(** SHA-256 (FIPS 180-4) on 32-bit words kept in [Z]. *)
Module SHA256.

Definition mask32 : Z := 0xffffffff.

Definition add32 (x y : Z) : Z := Z.land (x + y) mask32.

Definition rotr (n x : Z) : Z :=
  Z.lor (Z.shiftr x n) (Z.land (Z.shiftl x (32 - n)) mask32).

Definition xor3 (x y z : Z) : Z := Z.lxor (Z.lxor x y) z.

Definition Ch (x y z : Z) : Z :=
  Z.lxor (Z.land x y) (Z.land (Z.lxor x mask32) z).

Definition Maj (x y z : Z) : Z :=
  xor3 (Z.land x y) (Z.land x z) (Z.land y z).

Definition big_sigma0 (x : Z) : Z := xor3 (rotr 2 x) (rotr 13 x) (rotr 22 x).
Definition big_sigma1 (x : Z) : Z := xor3 (rotr 6 x) (rotr 11 x) (rotr 25 x).
Definition small_sigma0 (x : Z) : Z := xor3 (rotr 7 x) (rotr 18 x) (Z.shiftr x 3).
Definition small_sigma1 (x : Z) : Z := xor3 (rotr 17 x) (rotr 19 x) (Z.shiftr x 10).

Definition is_prime (n : Z) : bool :=
  forallb (fun d => negb (n mod d =? 0))
    (map Z.of_nat (seq 2 (Z.to_nat n - 2))).

(** The first 64 primes, 2 to 311. *)
Definition primes : list Z :=
  List.filter is_prime (map Z.of_nat (seq 2 310)).

(** The largest [x] below [2^bits] with [x^k <= n], bit by bit. *)
Fixpoint root (k n : Z) (bits : nat) (x : Z) : Z :=
  match bits with
  | O => x
  | S bits' =>
      let y := x + 2 ^ Z.of_nat bits' in
      root k n bits' (if y ^ k <=? n then y else x)
  end.

(** The first 32 bits of the fractional part of the [k]-th root of [p]. *)
Definition root_fraction (k p : Z) : Z :=
  Z.land (root k (p * 2 ^ (32 * k)) 40 0) mask32.

(** The round constants: from the cube roots of the first 64 primes. *)
Definition K : list Z := Eval vm_compute in map (root_fraction 3) primes.

(** The initial hash value: from the square roots of the first 8
    primes. *)
Definition H0 : list Z :=
  Eval vm_compute in map (root_fraction 2) (firstn 8 primes).

(** The message followed by the bit 1, zeros, and its length in bits on
    eight bytes, a multiple of 64 bytes in all. *)
Definition pad (msg : list Z) : list Z :=
  let len := Z.of_nat (List.length msg) in
  let zeros := Z.to_nat ((55 - len) mod 64) in
  let bits := len * 8 in
  msg ++ [0x80] ++ repeat 0 zeros
      ++ map (fun i => Z.land (Z.shiftr bits (8 * (7 - i))) 255)
             [0; 1; 2; 3; 4; 5; 6; 7].

(** Big-endian words of a byte list. *)
Fixpoint words (bytes : list Z) : list Z :=
  match bytes with
  | b0 :: b1 :: b2 :: b3 :: rest =>
      (Z.shiftl b0 24 + Z.shiftl b1 16 + Z.shiftl b2 8 + b3) :: words rest
  | _ => []
  end.

Definition word_bytes (w : Z) : list Z :=
  [Z.land (Z.shiftr w 24) 255; Z.land (Z.shiftr w 16) 255;
   Z.land (Z.shiftr w 8) 255; Z.land w 255].

Fixpoint chunks (fuel : nat) (size : nat) (l : list Z) : list (list Z) :=
  match fuel, l with
  | O, _ | _, [] => []
  | S fuel', _ => firstn size l :: chunks fuel' size (skipn size l)
  end.

(** The message schedule: [n] more words after the ones in [w]. *)
Fixpoint schedule (n : nat) (w : list Z) : list Z :=
  match n with
  | O => w
  | S n' =>
      let t := List.length w in
      let at_ i := nth (t - i) w 0 in
      schedule n'
        (w ++ [add32 (add32 (small_sigma1 (at_ 2%nat)) (at_ 7%nat))
                     (add32 (small_sigma0 (at_ 15%nat)) (at_ 16%nat))])
  end.

Definition round (s : list Z) (kw : Z * Z) : list Z :=
  match s with
  | [a; b; c; d; e; f; g; h] =>
      let t1 := add32 (add32 (add32 h (big_sigma1 e)) (Ch e f g))
                      (add32 (fst kw) (snd kw)) in
      let t2 := add32 (big_sigma0 a) (Maj a b c) in
      [add32 t1 t2; a; b; c; add32 d t1; e; f; g]
  | _ => s
  end.

Definition compress (h : list Z) (block : list Z) : list Z :=
  let w := schedule 48 (words block) in
  let s := fold_left round (combine K w) h in
  map (fun p => add32 (fst p) (snd p)) (combine h s).

Definition digest (msg : list Z) : list Z :=
  let padded := pad msg in
  let blocks := chunks (List.length padded) 64 padded in
  flat_map word_bytes (fold_left compress blocks H0).

(** HMAC (RFC 2104) with SHA-256, block size 64. *)
Definition hmac (key msg : list Z) : list Z :=
  let k0 := if (64 <? Z.of_nat (List.length key)) then digest key else key in
  let k := k0 ++ repeat 0 (64 - List.length k0) in
  let ipad := map (Z.lxor 0x36) k in
  let opad := map (Z.lxor 0x5c) k in
  digest (opad ++ digest (ipad ++ msg)).

End SHA256.

(** base64url without padding, as [Buffer] writes and reads it. *)
Module Base64url.

Definition alphabet : string :=
  "ABCDEFGHIJKLMNOPQRSTUVWXYZabcdefghijklmnopqrstuvwxyz0123456789-_".

Definition digit (n : Z) : ascii :=
  match String.get (Z.to_nat n) alphabet with
  | Some a => a
  | None => "A"
  end.

Fixpoint encode (bytes : list Z) : string :=
  match bytes with
  | [] => ""
  | [b0] =>
      String (digit (Z.shiftr b0 2))
        (String (digit (Z.shiftl (Z.land b0 3) 4)) "")
  | [b0; b1] =>
      String (digit (Z.shiftr b0 2))
        (String (digit (Z.lor (Z.shiftl (Z.land b0 3) 4) (Z.shiftr b1 4)))
           (String (digit (Z.shiftl (Z.land b1 15) 2)) ""))
  | b0 :: b1 :: b2 :: rest =>
      String (digit (Z.shiftr b0 2))
        (String (digit (Z.lor (Z.shiftl (Z.land b0 3) 4) (Z.shiftr b1 4)))
           (String (digit (Z.lor (Z.shiftl (Z.land b1 15) 2) (Z.shiftr b2 6)))
              (String (digit (Z.land b2 63)) (encode rest))))
  end.

(** The value of a digit, in either alphabet. *)
Definition value (a : ascii) : option Z :=
  let n := Z.of_nat (nat_of_ascii a) in
  if (65 <=? n) && (n <=? 90) then Some (n - 65)
  else if (97 <=? n) && (n <=? 122) then Some (n - 71)
  else if (48 <=? n) && (n <=? 57) then Some (n + 4)
  else if (n =? 45) || (n =? 43) then Some 62
  else if (n =? 95) || (n =? 47) then Some 63
  else None.

(** The digits read by the decoder: it skips every other character and
    stops at the first [=]. *)
Fixpoint sextets (s : string) : list Z :=
  match s with
  | EmptyString => []
  | String a s' =>
      if Ascii.eqb a "=" then []
      else match value a with
           | Some v => v :: sextets s'
           | None => sextets s'
           end
  end.

Fixpoint decode_sextets (l : list Z) : list Z :=
  match l with
  | a :: b :: c :: d :: rest =>
      Z.lor (Z.shiftl a 2) (Z.shiftr b 4)
      :: Z.lor (Z.shiftl (Z.land b 15) 4) (Z.shiftr c 2)
      :: Z.lor (Z.shiftl (Z.land c 3) 6) d
      :: decode_sextets rest
  | [a; b; c] =>
      [Z.lor (Z.shiftl a 2) (Z.shiftr b 4);
       Z.lor (Z.shiftl (Z.land b 15) 4) (Z.shiftr c 2)]
  | [a; b] => [Z.lor (Z.shiftl a 2) (Z.shiftr b 4)]
  | _ => []
  end.

Definition decode (s : string) : list Z := decode_sextets (sextets s).

End Base64url.

(** Decoding of bytes as UTF-8 with U+FFFD for every ill-formed sequence
    (the WHATWG decoder); the result is again in UTF-8. *)
Module UTF8.

Definition replacement : list Z := [239; 191; 189].

(** The decoder between characters reads [b]: the bytes to put out, and
    when [b] starts a longer sequence, the bytes seen, the number still
    needed and the bounds of the next byte. *)
Definition lead (b : Z) : list Z * option (list Z * nat * Z * Z) :=
  if b <=? 127 then ([b], None)
  else if (194 <=? b) && (b <=? 223) then ([], Some ([b], 1%nat, 128, 191))
  else if (224 <=? b) && (b <=? 239)
  then ([], Some ([b], 2%nat, (if b =? 224 then 160 else 128),
                  (if b =? 237 then 159 else 191)))
  else if (240 <=? b) && (b <=? 244)
  then ([], Some ([b], 3%nat, (if b =? 240 then 144 else 128),
                  (if b =? 244 then 143 else 191)))
  else (replacement, None).

Fixpoint decode_from (pending : option (list Z * nat * Z * Z)) (bytes : list Z)
  : list Z :=
  match bytes with
  | [] => match pending with Some _ => replacement | None => [] end
  | b :: rest =>
      match pending with
      | None =>
          let (out, st) := lead b in out ++ decode_from st rest
      | Some (seen, needed, lower, upper) =>
          if (lower <=? b) && (b <=? upper)
          then match needed with
               | 1%nat | O => seen ++ [b] ++ decode_from None rest
               | S needed' =>
                   decode_from (Some (seen ++ [b], needed', 128, 191)) rest
               end
          else let (out, st) := lead b in
               replacement ++ out ++ decode_from st rest
      end
  end.

Definition decode (bytes : list Z) : list Z := decode_from None bytes.

End UTF8.

(** Doubles: the value of a decimal literal and the digits of
    [Number::toString]. A positive rational is a pair [p], [q]. *)
Module Number.

Fixpoint digits_of (fuel : nat) (n : Z) (acc : string) : string :=
  match fuel with
  | O => acc
  | S fuel' =>
      let acc' := String (ascii_of_nat (Z.to_nat (48 + n mod 10))) acc in
      if n <? 10 then acc' else digits_of fuel' (n / 10) acc'
  end.

(** The decimal digits of [n >= 0]. *)
Definition decimal (n : Z) : string :=
  digits_of (S (Z.to_nat (Z.log2 n))) n "".

(** [p/q * base^k] *)
Definition scale (base : Z) (p q k : Z) : Z * Z :=
  if 0 <=? k then (p * base ^ k, q) else (p, q * base ^ (- k)).

(** [p/q < base^k] *)
Definition below (base : Z) (p q k : Z) : bool :=
  let (p', q') := scale base p q (- k) in p' <? q'.

Definition floor_log2 (p q : Z) : Z :=
  let r := Z.log2 p - Z.log2 q in
  if below 2 p q r then r - 1 else r.

Definition round_half_even (p q : Z) : Z :=
  let n := p / q in
  match Z.compare (2 * (p mod q)) q with
  | Lt => n
  | Gt => n + 1
  | Eq => if Z.even n then n else n + 1
  end.

(** The double nearest to [p/q], as [mant * 2^b] with [mant <= 2^53];
    [None] when it is infinite. *)
Definition to_double (p q : Z) : option (Z * Z) :=
  let b := Z.max (floor_log2 p q - 52) (-1074) in
  let (p', q') := scale 2 p q (- b) in
  let mant := round_half_even p' q' in
  if (971 <? b) || ((b =? 971) && (2 ^ 53 <=? mant)) then None
  else Some (mant, b).

Definition same_double (x y : option (Z * Z)) : bool :=
  match x, y with
  | Some (m1, b1), Some (m2, b2) =>
      let low := Z.min b1 b2 in
      m1 * 2 ^ (b1 - low) =? m2 * 2 ^ (b2 - low)
  | None, None => true
  | _, _ => false
  end.

(** The least [n] from [start] on with [p/q < 10^n]. *)
Fixpoint decade (fuel : nat) (p q n : Z) : Z :=
  match fuel with
  | O => n
  | S fuel' => if below 10 p q n then n else decade fuel' p q (n + 1)
  end.

Fixpoint strip_zeros (fuel : nat) (m e : Z) : Z * Z :=
  match fuel with
  | O => (m, e)
  | S fuel' =>
      if (m mod 10 =? 0) && negb (m =? 0)
      then strip_zeros fuel' (m / 10) (e + 1) else (m, e)
  end.

Definition normal (m e : Z) : Z * Z :=
  if m =? 0 then (0, 0) else strip_zeros (Z.to_nat (Z.log2 (Z.abs m))) m e.

(** The shortest digits [s] with [s * 10^(n - k)] rounding to the double
    [p/q], tried for [k], [k + 1], ... digits; of two candidates the
    nearer one, the even one on a tie. *)
Fixpoint shortest (fuel : nat) (p q n k : Z) : Z * Z :=
  let (sp, sq) := scale 10 p q (k - n) in
  let lo := sp / sq in
  let hi := lo + 1 in
  let fits s :=
    let (cp, cq) := scale 10 s 1 (n - k) in
    same_double (to_double cp cq) (to_double p q) in
  let pick :=
    match fits lo, fits hi with
    | true, true =>
        match Z.compare (2 * (sp mod sq)) sq with
        | Lt => Some lo
        | Gt => Some hi
        | Eq => Some (if Z.even lo then lo else hi)
        end
    | true, false => Some lo
    | false, true => Some hi
    | false, false => None
    end in
  match pick, fuel with
  | Some s, _ => (s, n - k)
  | None, O => (lo, n - k)
  | None, S fuel' => shortest fuel' p q n (k + 1)
  end.

(** The double nearest to [m * 10^e], [m > 0], as its shortest decimal;
    [None] when it is infinite. *)
Definition of_positive (m e : Z) : option (Z * Z) :=
  let (p, q) := scale 10 m 1 e in
  match to_double p q with
  | None => None
  | Some (mant, b) =>
      if mant =? 0 then Some (0, 0)
      else
        let (dp, dq) := scale 2 mant 1 b in
        let n := decade 4 dp dq ((floor_log2 dp dq) * 30103 / 100000 - 1) in
        let (s, e') := shortest 20 dp dq n 1 in
        Some (normal s e')
  end.

(** The number of a decimal literal [m * 10^e]; an integer below 10^21
    is kept with exponent 0. *)
Definition of_decimal (m e : Z) : JSNumber :=
  if m =? 0 then Dec 0 0
  else match of_positive (Z.abs m) e with
       | None => Infinity (m <? 0)
       | Some (s, e') =>
           if (0 <=? e') && (s * 10 ^ e' <? 10 ^ 21)
           then Dec (Z.sgn m * s * 10 ^ e') 0
           else Dec (Z.sgn m * s) e'
       end.

Definition zeros (n : Z) : string :=
  string_of_list_ascii (repeat "0"%char (Z.to_nat n)).

(** [Number::toString] of the finite number of digits [s] (no trailing
    zero) and exponent [e]. *)
Definition digits_toString (s e : Z) : string :=
  let ds := decimal s in
  let k := Z.of_nat (String.length ds) in
  let n := k + e in
  if (k <=? n) && (n <=? 21) then ds +:+ zeros (n - k)
  else if (0 <? n) && (n <=? 21)
  then String.substring 0 (Z.to_nat n) ds +:+ "."
       +:+ String.substring (Z.to_nat n) (Z.to_nat (k - n)) ds
  else if (-6 <? n) && (n <=? 0) then "0." +:+ zeros (- n) +:+ ds
  else
    let ex := (if 0 <=? n - 1 then "+" else "-") +:+ decimal (Z.abs (n - 1)) in
    if k =? 1 then ds +:+ "e" +:+ ex
    else String.substring 0 1 ds +:+ "."
         +:+ String.substring 1 (Z.to_nat (k - 1)) ds +:+ "e" +:+ ex.

Definition toString (x : JSNumber) : string :=
  match x with
  | NaN => "NaN"
  | Infinity negative => if negative then "-Infinity" else "Infinity"
  | Dec m e =>
      let (s, e') := normal m e in
      if s =? 0 then "0"
      else (if s <? 0 then "-" else "") +:+ digits_toString (Z.abs s) e'
  end.

End Number.

(** [JSON.parse] and [JSON.stringify]. *)
Module JSON.

Definition code (a : ascii) : Z := Z.of_nat (nat_of_ascii a).

Definition is_space (a : ascii) : bool :=
  URL.in_codes (code a) [32; 9; 10; 13].

Fixpoint skip_space (l : list ascii) : list ascii :=
  match l with
  | a :: l' => if is_space a then skip_space l' else l
  | [] => []
  end.

Definition is_digit (a : ascii) : bool := (48 <=? code a) && (code a <=? 57).

(** The leading digits of [l] and the rest. *)
Fixpoint digits (l : list ascii) : list ascii * list ascii :=
  match l with
  | a :: l' =>
      if is_digit a then let (ds, rest) := digits l' in (a :: ds, rest)
      else ([], l)
  | [] => ([], [])
  end.

Definition digits_value (ds : list ascii) : Z :=
  fold_left (fun acc d => acc * 10 + (code d - 48)) ds 0.

(** A number: [-]? int frac? exp?, no leading zero in front of a digit. *)
Definition number (l : list ascii) : option (JSNumber * list ascii) :=
  let (negative, l1) :=
    match l with
    | "-"%char :: r => (true, r)
    | _ => (false, l)
    end in
  let (int, l2) := digits l1 in
  let frac :=
    match l2 with
    | "."%char :: r =>
        let (f, r') := digits r in
        match f with [] => None | _ => Some (f, r') end
    | _ => Some ([], l2)
    end in
  match int, frac with
  | [], _ | _, None => None
  | "0"%char :: _ :: _, _ => None
  | _, Some (f, l3) =>
      let expo :=
        match l3 with
        | a :: r =>
            if Ascii.eqb a "e" || Ascii.eqb a "E"
            then
              let (sign, r1) :=
                match r with
                | "-"%char :: r' => (-1, r')
                | "+"%char :: r' => (1, r')
                | _ => (1, r)
                end in
              let (ds, r2) := digits r1 in
              match ds with
              | [] => None
              | _ => Some (sign * digits_value ds, r2)
              end
            else Some (0, l3)
        | [] => Some (0, l3)
        end in
      match expo with
      | None => None
      | Some (ex, l4) =>
          let m := digits_value (int ++ f) in
          Some (Number.of_decimal (if negative then - m else m)
                  (ex - Z.of_nat (List.length f)), l4)
      end
  end.

Definition hex_value (a : ascii) : option Z :=
  let n := code a in
  if is_digit a then Some (n - 48)
  else if (65 <=? n) && (n <=? 70) then Some (n - 55)
  else if (97 <=? n) && (n <=? 102) then Some (n - 87)
  else None.

(** The code unit of four hexadecimal digits. *)
Definition hex4 (l : list ascii) : option (Z * list ascii) :=
  match l with
  | a :: b :: c :: d :: rest =>
      match hex_value a, hex_value b, hex_value c, hex_value d with
      | Some x, Some y, Some z, Some w =>
          Some (((x * 16 + y) * 16 + z) * 16 + w, rest)
      | _, _, _, _ => None
      end
  | _ => None
  end.

(** The UTF-8 bytes of a code point, a surrogate included. *)
Definition utf8 (cp : Z) : list ascii :=
  JS.chars
    (if cp <? 128 then [cp]
     else if cp <? 2048 then [Z.lor 192 (Z.shiftr cp 6); Z.lor 128 (Z.land cp 63)]
     else if cp <? 65536
     then [Z.lor 224 (Z.shiftr cp 12);
           Z.lor 128 (Z.land (Z.shiftr cp 6) 63);
           Z.lor 128 (Z.land cp 63)]
     else [Z.lor 240 (Z.shiftr cp 18);
           Z.lor 128 (Z.land (Z.shiftr cp 12) 63);
           Z.lor 128 (Z.land (Z.shiftr cp 6) 63);
           Z.lor 128 (Z.land cp 63)]).

(** The characters of a string after its opening quote; [acc] is what
    was read, last character first. *)
Fixpoint string_body (fuel : nat) (l : list ascii) (acc : list ascii)
  : option (string * list ascii) :=
  match fuel with
  | O => None
  | S fuel' =>
      match l with
      | [] => None
      | a :: r =>
          if Ascii.eqb a "034" then Some (string_of_list_ascii (rev acc), r)
          else if Ascii.eqb a "\"
          then
            match r with
            | [] => None
            | c :: r' =>
                let plain n := string_body fuel' r' (rev (JS.chars [n]) ++ acc) in
                if Ascii.eqb c "034" || Ascii.eqb c "\" || Ascii.eqb c "/"
                then string_body fuel' r' (c :: acc)
                else if Ascii.eqb c "b" then plain 8
                else if Ascii.eqb c "f" then plain 12
                else if Ascii.eqb c "n" then plain 10
                else if Ascii.eqb c "r" then plain 13
                else if Ascii.eqb c "t" then plain 9
                else if Ascii.eqb c "u"
                then
                  match hex4 r' with
                  | None => None
                  | Some (hi, r1) =>
                      let single := string_body fuel' r1 (rev (utf8 hi) ++ acc) in
                      if (55296 <=? hi) && (hi <=? 56319)
                      then
                        match r1 with
                        | "\"%char :: "u"%char :: r2 =>
                            match hex4 r2 with
                            | Some (lo, r3) =>
                                if (56320 <=? lo) && (lo <=? 57343)
                                then string_body fuel' r3
                                       (rev (utf8 (65536 + (hi - 55296) * 1024
                                                   + (lo - 56320))) ++ acc)
                                else single
                            | None => single
                            end
                        | _ => single
                        end
                      else single
                  end
                else None
            end
          else if code a <? 32 then None
          else string_body fuel' r (a :: acc)
      end
  end.

(** [props] with [k] set to [v]: an existing key keeps its place. *)
Fixpoint set_prop (k : string) (v : JSValue) (props : list (string * JSValue))
  : list (string * JSValue) :=
  match props with
  | [] => [(k, v)]
  | (k', v') :: rest =>
      if String.eqb k' k then (k, v) :: rest else (k', v') :: set_prop k v rest
  end.

(** The elements of an array after the first, up to the bracket. *)
Fixpoint elements (fuel : nat)
    (value : list ascii -> option (JSValue * list ascii))
    (acc : list JSValue) (l : list ascii) : option (JSValue * list ascii) :=
  match fuel with
  | O => None
  | S fuel' =>
      match skip_space l with
      | a :: r =>
          if Ascii.eqb a "]" then Some (JArr (rev acc), r)
          else if Ascii.eqb a ","
          then match value r with
               | Some (v, r') => elements fuel' value (v :: acc) r'
               | None => None
               end
          else None
      | [] => None
      end
  end.

(** One member [ "key" : value ] of an object. *)
Definition member (fuel : nat)
    (value : list ascii -> option (JSValue * list ascii))
    (l : list ascii) : option (string * JSValue * list ascii) :=
  match skip_space l with
  | a :: r =>
      if Ascii.eqb a "034"
      then match string_body fuel r [] with
           | Some (k, r1) =>
               match skip_space r1 with
               | c :: r2 =>
                   if Ascii.eqb c ":"
                   then match value r2 with
                        | Some (v, r3) => Some (k, v, r3)
                        | None => None
                        end
                   else None
               | [] => None
               end
           | None => None
           end
      else None
  | [] => None
  end.

(** The members of an object after the first, up to the brace. *)
Fixpoint members (fuel : nat)
    (value : list ascii -> option (JSValue * list ascii))
    (acc : list (string * JSValue)) (l : list ascii)
  : option (JSValue * list ascii) :=
  match fuel with
  | O => None
  | S fuel' =>
      match skip_space l with
      | a :: r =>
          if Ascii.eqb a "}" then Some (JObj acc, r)
          else if Ascii.eqb a ","
          then match member fuel value r with
               | Some (k, v, r') => members fuel' value (set_prop k v acc) r'
               | None => None
               end
          else None
      | [] => None
      end
  end.

Definition keyword (word : string) (v : JSValue) (l : list ascii)
  : option (JSValue * list ascii) :=
  match JS.strip_prefix (list_ascii_of_string word) l with
  | Some rest => Some (v, rest)
  | None => None
  end.

(** A value, white space in front of it allowed. *)
Fixpoint value (fuel : nat) (l : list ascii) : option (JSValue * list ascii) :=
  match fuel with
  | O => None
  | S fuel' =>
      match skip_space l with
      | [] => None
      | a :: r =>
          if Ascii.eqb a "{"
          then match skip_space r with
               | "}"%char :: r' => Some (JObj [], r')
               | _ =>
                   match member (List.length l) (value fuel') r with
                   | Some (k, v, r') =>
                       members (List.length l) (value fuel') [(k, v)] r'
                   | None => None
                   end
               end
          else if Ascii.eqb a "["
          then match skip_space r with
               | "]"%char :: r' => Some (JArr [], r')
               | _ =>
                   match value fuel' r with
                   | Some (v, r') =>
                       elements (List.length l) (value fuel') [v] r'
                   | None => None
                   end
               end
          else if Ascii.eqb a "034"
          then match string_body (List.length l) r [] with
               | Some (s, r') => Some (JStr s, r')
               | None => None
               end
          else if Ascii.eqb a "t" then keyword "true" (JBool true) (a :: r)
          else if Ascii.eqb a "f" then keyword "false" (JBool false) (a :: r)
          else if Ascii.eqb a "n" then keyword "null" JNull (a :: r)
          else match number (a :: r) with
               | Some (n, r') => Some (JNum n, r')
               | None => None
               end
      end
  end.

(** [JSON.parse(text)] *)
Definition parse (text : string) : Exc JSValue :=
  let l := list_ascii_of_string text in
  match value (S (List.length l)) l with
  | Some (v, rest) =>
      match skip_space rest with
      | [] => Ret v
      | _ => Throw "Unexpected non-whitespace character after JSON"
      end
  | None => Throw "Unexpected token in JSON"
  end.

End JSON.

(** [JSON.stringify] and [String]. *)
Module Convert.

Fixpoint join (sep : string) (l : list string) : string :=
  match l with
  | [] => ""
  | [x] => x
  | x :: rest => x +:+ sep +:+ join sep rest
  end.

Definition hex_lower (n : Z) : ascii :=
  ascii_of_nat (Z.to_nat (if n <? 10 then 48 + n else 87 + n)).

(** [\uXXXX] with lower-case digits. *)
Definition unicode_escape (cu : Z) : string :=
  String "\" (String "u"
    (string_of_list_ascii
       (map (fun i => hex_lower (Z.land (Z.shiftr cu (4 * i)) 15)) [3; 2; 1; 0]))).

Definition quote_char (a : ascii) : string :=
  let n := JSON.code a in
  if n =? 34 then String "\" (String a EmptyString)
  else if n =? 92 then String a (String a EmptyString)
  else if n =? 8 then "\b"
  else if n =? 9 then "\t"
  else if n =? 10 then "\n"
  else if n =? 12 then "\f"
  else if n =? 13 then "\r"
  else if n <? 32 then unicode_escape n
  else String a EmptyString.

(** The characters of a string between the quotes of its JSON form:
    quote, backslash and control characters are escaped, and so is a lone
    surrogate. *)
Fixpoint quote_body (s : string) : string :=
  match s with
  | EmptyString => EmptyString
  | String a s' =>
      match s' with
      | String b (String c s'') =>
          if (JSON.code a =? 237) && (160 <=? JSON.code b)
          then unicode_escape
                 (Z.lor (Z.lor (Z.shiftl (Z.land (JSON.code a) 15) 12)
                               (Z.shiftl (Z.land (JSON.code b) 63) 6))
                        (Z.land (JSON.code c) 63))
               +:+ quote_body s''
          else quote_char a +:+ quote_body s'
      | _ => quote_char a +:+ quote_body s'
      end
  end.

Definition quote (s : string) : string :=
  String "034" (quote_body s +:+ String "034" EmptyString).

(** The array index a property key denotes, if it is one: digits without
    a leading zero, below 2^32 - 1. *)
Definition index_of_key (k : string) : option Z :=
  let l := list_ascii_of_string k in
  match l with
  | [] => None
  | a :: rest =>
      if forallb JSON.is_digit l
         && (negb (Ascii.eqb a "0") || Nat.eqb (List.length rest) 0)
         && (List.length l <=? 10)%nat
         && (JSON.digits_value l <? 2 ^ 32 - 1)
      then Some (JSON.digits_value l) else None
  end.

Fixpoint insert_index {A} (i : Z) (x : A) (l : list (Z * A)) : list (Z * A) :=
  match l with
  | [] => [(i, x)]
  | (j, y) :: rest =>
      if i <? j then (i, x) :: l else (j, y) :: insert_index i x rest
  end.

(** The order in which the keys of an object are enumerated: array
    indices first, ascending, then the other keys as inserted. *)
Definition enumerate {A} (props : list (string * A)) : list (string * A) :=
  let indexed :=
    fold_left
      (fun acc p =>
         match index_of_key (fst p) with
         | Some i => insert_index i p acc
         | None => acc
         end) props [] in
  map snd indexed
  ++ List.filter (fun p => match index_of_key (fst p) with
                      | Some _ => false
                      | None => true
                      end) props.

(** [JSON.stringify(v)]; [None] is [undefined]. *)
Fixpoint stringify (v : JSValue) : option string :=
  match v with
  | JUndefined | JFunction _ => None
  | JNull => Some "null"
  | JBool b => Some (if b then "true" else "false")
  | JNum (Dec m e) => Some (Number.toString (Dec m e))
  | JNum _ => Some "null"
  | JStr s => Some (quote s)
  | JArr items =>
      let rendered :=
        (fix each (l : list JSValue) : list string :=
           match l with
           | [] => []
           | x :: rest => default "null" (stringify x) :: each rest
           end) items in
      Some ("[" +:+ join "," rendered +:+ "]")
  | JObj props =>
      let rendered :=
        (fix each (l : list (string * JSValue)) : list (string * string) :=
           match l with
           | [] => []
           | (k, x) :: rest =>
               match stringify x with
               | Some text => (k, quote k +:+ ":" +:+ text) :: each rest
               | None => each rest
               end
           end) props in
      Some ("{" +:+ join "," (map snd (enumerate rendered)) +:+ "}")
  end.

(** [String(v)]. An array joins its elements, [null] and [undefined]
    being empty; an object is [[object Object]] unless it has an own
    property [toString], which is not callable, and then the conversion
    to a primitive throws. *)
Fixpoint to_string (v : JSValue) : Exc string :=
  match v with
  | JUndefined => Ret "undefined"
  | JNull => Ret "null"
  | JBool b => Ret (if b then "true" else "false")
  | JNum n => Ret (Number.toString n)
  | JStr s => Ret s
  | JArr items =>
      (fix each (l : list JSValue) (acc : list string) : Exc string :=
         match l with
         | [] => Ret (join "," (rev acc))
         | x :: rest =>
             match x with
             | JUndefined | JNull => each rest ("" :: acc)
             | _ =>
                 match to_string x with
                 | Ret text => each rest (text :: acc)
                 | Throw m => Throw m
                 end
             end
         end) items []
  | JObj props =>
      if existsb (fun p => String.eqb (fst p) "toString") props
      then Throw "Cannot convert object to primitive value"
      else Ret "[object Object]"
  | JFunction name => Ret ("function " +:+ name +:+ "() { [native code] }")
  end.

End Convert.

(** SHA-1 (FIPS 180-4), with the padding, the words and the blocks of
    SHA-256. *)
Module SHA1.

Import SHA256.

Definition rotl (n x : Z) : Z :=
  Z.lor (Z.land (Z.shiftl x n) mask32) (Z.shiftr x (32 - n)).

(** The message schedule: [n] more words after the ones in [w]. *)
Fixpoint schedule (n : nat) (w : list Z) : list Z :=
  match n with
  | O => w
  | S n' =>
      let t := List.length w in
      let at_ i := nth (t - i) w 0 in
      schedule n'
        (w ++ [rotl 1 (Z.lxor (xor3 (at_ 3%nat) (at_ 8%nat) (at_ 14%nat))
                         (at_ 16%nat))])
  end.

(** The function of round [t]: Ch, Parity, Maj, Parity, twenty rounds
    each. *)
Definition f (t : nat) (b c d : Z) : Z :=
  if (t <? 20)%nat then Ch b c d
  else if (t <? 40)%nat then xor3 b c d
  else if (t <? 60)%nat then Maj b c d
  else xor3 b c d.

(** The constant of round [t]: 2^30 times the square root of 2, 3, 5
    and 10. *)
Definition K (t : nat) : Z :=
  nth (t / 20)%nat (map (fun n => root 2 (n * 2 ^ 60) 40 0) [2; 3; 5; 10]) 0.

Definition H0 : list Z :=
  [0x67452301; 0xefcdab89; 0x98badcfe; 0x10325476; 0xc3d2e1f0].

Definition round (s : list Z) (tw : nat * Z) : list Z :=
  match s with
  | [a; b; c; d; e] =>
      let t := fst tw in
      [add32 (add32 (add32 (rotl 5 a) (f t b c d)) (add32 e (K t))) (snd tw);
       a; rotl 30 b; c; d]
  | _ => s
  end.

Definition compress (h : list Z) (block : list Z) : list Z :=
  let w := schedule 64 (words block) in
  let s := fold_left round (combine (seq 0 80) w) h in
  map (fun p => add32 (fst p) (snd p)) (combine h s).

Definition digest (msg : list Z) : list Z :=
  let padded := pad msg in
  let blocks := chunks (List.length padded) 64 padded in
  flat_map word_bytes (fold_left compress blocks H0).

End SHA1.

(** The etag package on the bytes of a body: the length in hexadecimal
    and the first 27 characters of the base64 SHA-1, between quotes. *)
Module ETag.

Fixpoint hex (fuel : nat) (n : Z) : string :=
  match fuel with
  | O => ""
  | S fuel' =>
      (if n <? 16 then "" else hex fuel' (n / 16))
      +:+ String (Convert.hex_lower (n mod 16)) ""
  end.

(** A digit of base64url as the digit of base64. *)
Definition base64_digit (a : ascii) : ascii :=
  if Ascii.eqb a "-" then "+" else if Ascii.eqb a "_" then "/" else a.

Fixpoint base64 (s : string) : string :=
  match s with
  | EmptyString => EmptyString
  | String a s' => String (base64_digit a) (base64 s')
  end.

Definition entitytag (body : string) : string :=
  let bytes := bytes_of_string body in
  let len := Z.of_nat (List.length bytes) in
  let hash := String.substring 0 27 (base64 (Base64url.encode (SHA1.digest bytes))) in
  String "034" (hex 64 len +:+ "-" +:+ hash +:+ String "034" "").

(** [etag(body, { weak: true })] *)
Definition weak (body : string) : string := "W/" +:+ entitytag body.

End ETag.

(** The fresh package (0.5), for a response without Last-Modified. *)
Module Fresh.

(** Whether [/(?:^|,)\s*?no-cache\s*?(?:,|$)/] matches: an element of the
    comma-separated list is [no-cache] between white space. *)
Definition no_cache (cacheControl : string) : bool :=
  existsb (fun p => String.eqb (trim p) "no-cache") (split cacheControl ",").

(** [parseTokenList]: the elements between commas, without the spaces
    before them and after them; [start] and [stop] bound the element
    that is being read, at index [i]. *)
Fixpoint token_list (l : list ascii) (i start stop : nat) (s : string)
  : list string :=
  match l with
  | [] => [String.substring start (stop - start) s]
  | c :: l' =>
      if Ascii.eqb c " "
      then if Nat.eqb start stop
           then token_list l' (S i) (S i) (S i) s
           else token_list l' (S i) start stop s
      else if Ascii.eqb c ","
      then String.substring start (stop - start) s
           :: token_list l' (S i) (S i) (S i) s
      else token_list l' (S i) start (S i) s
  end.

Definition parseTokenList (s : string) : list string :=
  token_list (list_ascii_of_string s) 0 0 0 s.

(** One of the tags of If-None-Match is the entity tag, weak or not. *)
Definition etag_matches (noneMatch etag : string) : bool :=
  existsb (fun m => String.eqb m etag || String.eqb m ("W/" +:+ etag)
                    || String.eqb ("W/" +:+ m) etag)
    (parseTokenList noneMatch).

Definition fresh (reqHeaders : gmap string string) (etag : option string)
  : bool :=
  let modifiedSince := default "" (reqHeaders !! "if-modified-since") in
  let noneMatch := default "" (reqHeaders !! "if-none-match") in
  if String.eqb modifiedSince "" && String.eqb noneMatch "" then false
  else if no_cache (default "" (reqHeaders !! "cache-control")) then false
  else if negb (String.eqb noneMatch "") && negb (String.eqb noneMatch "*")
          && (String.eqb (default "" etag) ""
              || negb (etag_matches noneMatch (default "" etag)))
  then false
  else if negb (String.eqb modifiedSince "") then false
  else true.

End Fresh.

(** The encodeurl package (1.0): unmatched surrogates become U+FFFD, then
    every run of characters that are not URL characters, and of percent
    signs that start no escape, goes through [encodeURI]. *)
Module EncodeUrl.

Import URL.

(** The UTF-16 code units of a string with the bytes they stand for: a
    character of the Basic Multilingual Plane (or a byte that belongs to
    no character), the two halves of a character beyond it, of which the
    first carries the four bytes, and a lone surrogate. *)
Inductive CodeUnit : Type :=
| Plain (bytes : string)
| Lead (bytes : string)
| Trail
| Lone (high : bool) (bytes : string).

Definition continuation (a : ascii) : bool :=
  (128 <=? code a) && (code a <=? 191).

Fixpoint code_units (s : string) : list CodeUnit :=
  match s with
  | EmptyString => []
  | String a s1 =>
      let byte := Plain (String a "") :: code_units s1 in
      match s1 with
      | String b s2 =>
          if (194 <=? code a) && (code a <=? 223) && continuation b
          then Plain (String a (String b "")) :: code_units s2
          else
            match s2 with
            | String c s3 =>
                if (code a =? 237) && (160 <=? code b)
                then Lone (code b <? 176) (String a (String b (String c "")))
                     :: code_units s3
                else if (224 <=? code a) && (code a <=? 239)
                        && continuation b && continuation c
                then Plain (String a (String b (String c ""))) :: code_units s3
                else
                  match s3 with
                  | String d s4 =>
                      if (240 <=? code a) && (code a <=? 244)
                         && continuation b && continuation c && continuation d
                      then Lead (String a (String b (String c (String d ""))))
                           :: Trail :: code_units s4
                      else byte
                  | EmptyString => byte
                  end
            | EmptyString => byte
            end
      | EmptyString => byte
      end
  end.

Definition is_high (u : CodeUnit) : bool :=
  match u with
  | Lead _ | Lone true _ => true
  | _ => false
  end.

Definition is_low (u : CodeUnit) : bool :=
  match u with
  | Trail | Lone false _ => true
  | _ => false
  end.

Definition is_lone (u : CodeUnit) : bool :=
  match u with
  | Lone _ _ => true
  | _ => false
  end.

(** U+FFFD *)
Definition replacement : CodeUnit :=
  Plain (String "239" (String "191" (String "189" ""))).

(** The replacement of
    [/(^|[^\uD800-\uDBFF])[\uDC00-\uDFFF]|[\uD800-\uDBFF]([^\uDC00-\uDFFF]|$)/g]
    by [$1], U+FFFD, [$2]: a match takes the unit before a low surrogate, or
    the unit after a high one, with it, and the search goes on behind
    the match. *)
Fixpoint replace_unmatched (at_start : bool) (l : list CodeUnit)
  : list CodeUnit :=
  match l with
  | [] => []
  | u :: rest =>
      if at_start && is_low u
      then replacement :: replace_unmatched false rest
      else
        match rest with
        | v :: rest' =>
            if negb (is_high u) && is_low v
            then u :: replacement :: replace_unmatched false rest'
            else if is_high u && negb (is_low v)
            then replacement :: v :: replace_unmatched false rest'
            else u :: replace_unmatched false rest
        | [] => if is_high u then [replacement] else [u]
        end
  end.

Definition unit_bytes (u : CodeUnit) : string :=
  match u with
  | Plain bytes | Lead bytes | Lone _ bytes => bytes
  | Trail => ""
  end.

Fixpoint flatten (l : list CodeUnit) : string :=
  match l with
  | [] => ""
  | u :: rest => unit_bytes u +:+ flatten rest
  end.

(** [encodeURI] keeps letters, digits and [; / ? : @ & = + $ , # - _ . !
    ~ * ' ( )]. *)
Definition encodeURI_byte (a : ascii) : string :=
  if is_alnum (code a)
     || in_codes (code a)
          [59; 47; 63; 58; 64; 38; 61; 43; 36; 44; 35; 45; 95; 46; 33; 126;
           42; 39; 40; 41]
  then String a "" else percent_byte a.

(** The runs of
    [/(?:[^\x21\x25\x26-\x3B\x3D\x3F-\x5B\x5D\x5F\x61-\x7A\x7E]|%(?:[^0-9A-Fa-f]|[0-9A-Fa-f][^0-9A-Fa-f]|$))+/g]
    through [encodeURI], for a string without lone surrogates: a percent
    sign that is not followed by two hexadecimal digits is matched with
    what follows it, up to the character that is not such a digit. *)
Fixpoint encode_chars (s : string) : string :=
  match s with
  | EmptyString => EmptyString
  | String a s1 =>
      if code a =? 37
      then
        match s1 with
        | EmptyString => "%25"
        | String h1 s2 =>
            if negb (is_hex (code h1))
            then "%25" +:+ encodeURI_byte h1 +:+ encode_chars s2
            else
              match s2 with
              | EmptyString => String a (encode_chars s1)
              | String h2 s3 =>
                  if is_hex (code h2) then String a (encode_chars s1)
                  else "%25" +:+ String h1 (encodeURI_byte h2 +:+ encode_chars s3)
              end
        end
      else if url_char (code a) then String a (encode_chars s1)
      else encodeURI_byte a +:+ encode_chars s1
  end.

Definition encodeUrl (url : string) : Exc string :=
  let units := replace_unmatched true (code_units url) in
  if existsb is_lone units then Throw "URI malformed"
  else Ret (encode_chars (flatten units)).

End EncodeUrl.

(** *** The laws of the platform, for these functions *)

Lemma url_clean_ascii (s : string) :
  URL.url_clean s = true ->
  forallb (fun a => URL.code a <? 128) (list_ascii_of_string s) = true.
Proof.
  induction s as [|a s IH]; simpl; [reflexivity|].
  destruct (URL.code a =? 37) eqn:E37.
  - apply Z.eqb_eq in E37. rewrite E37.
    destruct s as [|h1 [|h2 rest]]; try discriminate.
    intros Hc. apply andb_prop in Hc as [_ Hc]. now rewrite (IH Hc).
  - intros Hc. apply andb_prop in Hc as [Hu Hc]. rewrite (IH Hc), andb_true_r.
    unfold URL.url_char in Hu. lia.
Qed.

Lemma code_units_ascii (s : string) :
  forallb (fun a => URL.code a <? 128) (list_ascii_of_string s) = true ->
  EncodeUrl.code_units s
  = map (fun a => EncodeUrl.Plain (String a "")) (list_ascii_of_string s).
Proof.
  induction s as [|a s IH]; [reflexivity|].
  intros Ha. simpl in Ha. apply andb_prop in Ha as [Ha Hs].
  specialize (IH Hs). simpl list_ascii_of_string. simpl map. rewrite <- IH.
  assert (H194 : (194 <=? URL.code a) = false) by lia.
  assert (H237 : (URL.code a =? 237) = false) by lia.
  assert (H224 : (224 <=? URL.code a) = false) by lia.
  assert (H240 : (240 <=? URL.code a) = false) by lia.
  simpl. rewrite H194, H237, H224, H240. simpl.
  destruct s as [|b [|c [|d s]]]; reflexivity.
Qed.

Lemma replace_unmatched_plain (l : list ascii) (at_start : bool) :
  EncodeUrl.replace_unmatched at_start
    (map (fun a => EncodeUrl.Plain (String a "")) l)
  = map (fun a => EncodeUrl.Plain (String a "")) l.
Proof.
  revert at_start. induction l as [|a l IH]; intros at_start; [reflexivity|].
  simpl. rewrite andb_false_r.
  destruct l as [|b l]; [reflexivity|].
  simpl map. cbn [EncodeUrl.is_high EncodeUrl.is_low negb andb].
  f_equal. exact (IH false).
Qed.

Lemma flatten_plain (l : list ascii) :
  EncodeUrl.flatten (map (fun a => EncodeUrl.Plain (String a "")) l)
  = string_of_list_ascii l.
Proof.
  induction l as [|a l IH]; [reflexivity|].
  simpl. now rewrite IH.
Qed.

Lemma no_lone_plain (l : list ascii) :
  existsb EncodeUrl.is_lone (map (fun a => EncodeUrl.Plain (String a "")) l)
  = false.
Proof. induction l as [|a l IH]; [reflexivity | exact IH]. Qed.

Lemma encode_chars_clean (s : string) :
  URL.url_clean s = true -> EncodeUrl.encode_chars s = s.
Proof.
  induction s as [|a s IH]; [reflexivity|].
  simpl. destruct (URL.code a =? 37) eqn:E37.
  - destruct s as [|h1 [|h2 rest]]; try discriminate.
    intros Hc. apply andb_prop in Hc as [Hh Hc].
    apply andb_prop in Hh as [H1 H2]. rewrite H1, H2. simpl negb. cbv iota.
    now rewrite (IH Hc).
  - intros Hc. apply andb_prop in Hc as [Hu Hc]. now rewrite Hu, (IH Hc).
Qed.

Lemma Node_encodeUrl_clean (s : string) :
  URL.url_clean s = true -> EncodeUrl.encodeUrl s = Ret s.
Proof.
  intros Hc. unfold EncodeUrl.encodeUrl.
  rewrite (code_units_ascii s (url_clean_ascii s Hc)).
  rewrite replace_unmatched_plain, no_lone_plain, flatten_plain.
  rewrite string_of_list_ascii_of_string. now rewrite (encode_chars_clean s Hc).
Qed.

Lemma Node_fresh_unconditional (h : gmap string string) (tag : option string) :
  default "" (h !! "if-none-match") = "" ->
  default "" (h !! "if-modified-since") = "" ->
  Fresh.fresh h tag = false.
Proof. intros Hn Hm. unfold Fresh.fresh. now rewrite Hn, Hm. Qed.

Lemma Node_fresh_any (h : gmap string string) (tag : option string) :
  h !! "if-none-match" = Some "*" ->
  h !! "if-modified-since" = None ->
  h !! "cache-control" = None ->
  Fresh.fresh h tag = true.
Proof. intros Hn Hm Hc. unfold Fresh.fresh. now rewrite Hn, Hm, Hc. Qed.

(** The platform of Node with Express 4: strings are hashed and encoded
    as their UTF-8 bytes. *)
#[global, refine] Instance Node : Platform := {|
  hmac_sha256_base64url key data :=
    Base64url.encode (SHA256.hmac (bytes_of_string key) (bytes_of_string data));
  base64url_encode s := Base64url.encode (bytes_of_string s);
  base64url_decode s :=
    string_of_bytes (UTF8.decode (Base64url.decode s));
  JSON_parse := JSON.parse;
  JSON_stringify := Convert.stringify;
  ToString := Convert.to_string;
  encodeUrl := EncodeUrl.encodeUrl;
  etag := ETag.weak;
  fresh_headers := Fresh.fresh
|}.
Proof.
  - reflexivity.
  - exact Node_encodeUrl_clean.
  - exact Node_fresh_unconditional.
  - exact Node_fresh_any.
Defined.

(** ** Responses by name *)

(** A response with a JSON body and no cookie. *)
Definition json_response (code : Z) (v : JSValue) : Response :=
  {| status := code; cookies := []; body := Json v |}.

(** [401 { authenticated: false }] *)
Definition unauthenticated : Response :=
  json_response 401 (JObj [("authenticated", JBool false)]).

(** [200 { authenticated: true, user }] *)
Definition authenticated (user : JSValue) : Response :=
  json_response 200 (JObj [("authenticated", JBool true); ("user", user)]).

(** The cookie the callback sets for the serialized payload [json]. *)
Definition minted_cookie `{Platform} (env : Env) (json : string) : SetCookie :=
  {| cookie_name := "admin_session";
     cookie_value :=
       base64url_encode json +:+ "." +:+
       hmac_sha256_base64url (or_empty (ADMIN_JWT_SECRET env))
         (base64url_encode json);
     cookie_options := session_cookie_options env None |}.

(** A request that makes no condition: it has no If-None-Match and no
    If-Modified-Since header, or empty ones. *)
Definition unconditional (req : Request) : Prop :=
  or_empty (headers req !! "if-none-match") = ""
  /\ or_empty (headers req !! "if-modified-since") = "".

(** A cookie value that does split on the dot into two non-empty parts. *)
Definition well_formed_token (token : string) : Prop :=
  exists b64 sig, split token "." = [b64; sig] /\ b64 <> "" /\ sig <> "".

(** ** Concrete requests *)

Module Scenario.

Definition env : Env :=
  {| GOOGLE_CLIENT_ID := Some "client-1.apps.googleusercontent.com";
     GOOGLE_CLIENT_SECRET := Some "oauth-secret";
     GOOGLE_REDIRECT_URI := Some "https://shop.example/api/auth/google/callback";
     ADMIN_JWT_SECRET := Some "jwt-secret";
     ADMIN_API_TOKEN := Some "api-token";
     NODE_ENV := None |}.

(** The same deployment without a session secret. *)
Definition env_no_session_secret : Env :=
  {| GOOGLE_CLIENT_ID := GOOGLE_CLIENT_ID env;
     GOOGLE_CLIENT_SECRET := GOOGLE_CLIENT_SECRET env;
     GOOGLE_REDIRECT_URI := GOOGLE_REDIRECT_URI env;
     ADMIN_JWT_SECRET := None;
     ADMIN_API_TOKEN := ADMIN_API_TOKEN env;
     NODE_ENV := None |}.

(** The same deployment without an OAuth client secret. *)
Definition env_no_client_secret : Env :=
  {| GOOGLE_CLIENT_ID := GOOGLE_CLIENT_ID env;
     GOOGLE_CLIENT_SECRET := None;
     GOOGLE_REDIRECT_URI := GOOGLE_REDIRECT_URI env;
     ADMIN_JWT_SECRET := ADMIN_JWT_SECRET env;
     ADMIN_API_TOKEN := ADMIN_API_TOKEN env;
     NODE_ENV := None |}.

(** [Date.now()] on 14 November 2023, 22:13:20 UTC. *)
Definition now : Z := 1700000000000.

(** The token of a payload signed with [secret], built as the callback
    builds it. *)
Definition token_of (secret : string) (payload : JSValue) : string :=
  let b64 := base64url_encode (default "" (JSON_stringify payload)) in
  b64 +:+ "." +:+ hmac_sha256_base64url secret b64.

Definition with_cookie (token : string) : Request :=
  {| method := "GET";
     headers := {[ "cookie" := "admin_session=" +:+ token ]}; query := ∅ |}.


(** The request of a client that holds a copy of the answer, whatever
    it is. *)
Definition with_header_token_if_none_match (token tags : string) : Request :=
  {| method := "GET";
     headers := {[ "x-admin-token" := token; "if-none-match" := tags ]};
     query := ∅ |}.

Definition with_query (name : string) (v : JSValue) : Request :=
  {| method := "GET"; headers := ∅; query := {[ name := v ]} |}.

(** A complete payload with an expiry in the year 2286. *)
Definition payload_valid : JSValue :=
  JObj [("sub", JStr "108"); ("email", JStr "ann@shop.example");
        ("exp", JNum (Dec 9999999999 0)); ("name", JStr "Ann")].

(** A payload with an expiry in the year 2286 and nothing else. *)
Definition payload_exp_only : JSValue := JObj [("exp", JNum (Dec 9999999999 0))].

(** A complete payload that expired in September 2001. *)
Definition payload_expired : JSValue :=
  JObj [("sub", JStr "108"); ("email", JStr "ann@shop.example");
        ("exp", JNum (Dec 1000000001 0)); ("name", JStr "Ann")].

(** The identity provider: it exchanges any code for the ID token
    [id.token.1] and describes that token as issued to [aud]. *)
Definition google (aud : string) (r : FetchRequest) : Exc FetchResponse :=
  if String.eqb (fetch_url r) "https://oauth2.googleapis.com/token"
  then Ret {| ok := true; json := Ret (JObj [("id_token", JStr "id.token.1")]) |}
  else Ret {| ok := true;
              json := Ret (JObj [("aud", JStr aud); ("sub", JStr "108");
                                 ("email", JStr "ann@shop.example");
                                 ("name", JStr "Ann")]) |}.

(** The identity provider refusing the code. *)
Definition google_refusing (r : FetchRequest) : Exc FetchResponse :=
  Ret {| ok := false; json := Ret (JObj [("error", JStr "invalid_grant")]) |}.

(** No network. *)
Definition offline (r : FetchRequest) : Exc FetchResponse :=
  Throw "fetch failed".

(** The provider's redirect back to the callback. *)
Definition callback_request (state : string) : Request :=
  {| method := "GET"; headers := ∅;
     query := {[ "code" := JStr "4/0Ab"; "state" := JStr state ]} |}.

End Scenario.

(** * Properties *)

(** ** Strings *)

Fixpoint count_char (c : ascii) (s : string) : nat :=
  match s with
  | EmptyString => O
  | String a s' => (if Ascii.eqb a c then 1 else 0) + count_char c s'
  end.

(** What holds of every entry of the cookie map. *)
Definition cookie_entry_ok (k v : string) : Prop :=
  k <> "" /\ k <> "__proto__" /\ count_char "=" k = 0%nat
  /\ count_char ";" k = 0%nat /\ count_char ";" v = 0%nat.

Lemma split_not_nil (s : string) (c : ascii) : split s c <> [].
Proof.
  destruct s as [|a s]; simpl; [discriminate|].
  destruct (Ascii.eqb a c); [discriminate|].
  destruct (split s c); discriminate.
Qed.

(** [split] yields one piece more than there are separators. *)
Lemma split_length (s : string) (c : ascii) :
  List.length (split s c) = S (count_char c s).
Proof.
  induction s as [|a s IH]; simpl; [reflexivity|].
  destruct (Ascii.eqb a c); simpl.
  - now rewrite IH.
  - destruct (split s c) eqn:E; simpl in *; [discriminate IH | exact IH].
Qed.

Lemma num_lt_integers (m t : Z) : num_lt (Dec m 0) (num_of_Z t) = (m <? t).
Proof.
  unfold num_lt, num_of_Z. simpl. now rewrite !Z.mul_1_r.
Qed.

(** ** The platform of Node on known values *)

(** FIPS 180-4, the one-block and the two-block message. *)
Example sha256_abc :
  SHA256.digest (bytes_of_string "abc")
  =     [0xba; 0x78; 0x16; 0xbf; 0x8f; 0x01; 0xcf; 0xea; 0x41; 0x41; 0x40;
    0xde; 0x5d; 0xae; 0x22; 0x23; 0xb0; 0x03; 0x61; 0xa3; 0x96; 0x17; 0x7a;
    0x9c; 0xb4; 0x10; 0xff; 0x61; 0xf2; 0x00; 0x15; 0xad].
Proof. vm_compute. reflexivity. Qed.

Example sha256_two_blocks :
  SHA256.digest
    (bytes_of_string "abcdbcdecdefdefgefghfghighijhijkijkljklmklmnlmnomnopnopq")
  =     [0x24; 0x8d; 0x6a; 0x61; 0xd2; 0x06; 0x38; 0xb8; 0xe5; 0xc0; 0x26;
    0x93; 0x0c; 0x3e; 0x60; 0x39; 0xa3; 0x3c; 0xe4; 0x59; 0x64; 0xff; 0x21;
    0x67; 0xf6; 0xec; 0xed; 0xd4; 0x19; 0xdb; 0x06; 0xc1].
Proof. vm_compute. reflexivity. Qed.

(** RFC 4231, test case 2. *)
Example hmac_sha256_jefe :
  SHA256.hmac (bytes_of_string "Jefe")
    (bytes_of_string "what do ya want for nothing?")
  =     [0x5b; 0xdc; 0xc1; 0x46; 0xbf; 0x60; 0x75; 0x4e; 0x6a; 0x04; 0x24;
    0x26; 0x08; 0x95; 0x75; 0xc7; 0x5a; 0x00; 0x3f; 0x08; 0x9d; 0x27; 0x39;
    0x83; 0x9d; 0xec; 0x58; 0xb9; 0x64; 0xec; 0x38; 0x43].
Proof. vm_compute. reflexivity. Qed.

(** RFC 4648, the test vectors without their padding. *)
Example base64url_foobar :
  map base64url_encode ["f"; "fo"; "foo"; "foob"; "fooba"; "foobar"]
  = ["Zg"; "Zm8"; "Zm9v"; "Zm9vYg"; "Zm9vYmE"; "Zm9vYmFy"]
  /\ map base64url_decode ["Zg"; "Zm8"; "Zm9v"; "Zm9vYg"; "Zm9vYmE"; "Zm9vYmFy"]
     = ["f"; "fo"; "foo"; "foob"; "fooba"; "foobar"].
Proof. split; vm_compute; reflexivity. Qed.

(** [JSON.parse] of the payload of a session and of texts it rejects. *)
Example json_parse_payload :
  JSON_parse (base64url_decode "eyJleHAiOjk5OTk5OTk5OTl9")
  = Ret (JObj [("exp", JNum (Dec 9999999999 0))])
  /\ JSON_parse "[1.5e3, -0.25, true, null, {}]"
     = Ret (JArr [JNum (Dec 1500 0); JNum (Dec (-25) (-2)); JBool true; JNull;
                  JObj []])
  /\ JSON_parse "{exp:1}" = Throw "Unexpected token in JSON"
  /\ JSON_parse "01" = Throw "Unexpected token in JSON"
  /\ JSON_parse "" = Throw "Unexpected token in JSON".
Proof. repeat split; vm_compute; reflexivity. Qed.

(** The cookie header of a browser that holds other cookies too. *)
Example parseCookies_run :
  parseCookies (Some "theme=dark; admin_session= e30.e30 ; lang=en=US; =x; y")
  = {[ "theme" := "dark"; "admin_session" := "e30.e30"; "lang" := "en=US" ]}.
Proof. vm_compute. reflexivity. Qed.

(** ** What Express sends *)

Section Sending.

Context `{Platform}.

(** A response with a status from 300 on, other than 304, is sent as
    it is: only a 2xx or a 304 is compared with the request. *)
Lemma sent_error (req : Request) (code : Z) (cs : list SetCookie) (v : JSValue) :
  300 <= code -> code <> 304 ->
  sent req {| status := code; cookies := cs; body := Json v |}
  = {| status := code; cookies := cs; body := Json v |}.
Proof.
  intros Hc H304. unfold sent, req_fresh. simpl.
  replace (code <? 300) with false by lia.
  replace (code =? 304) with false by lia.
  rewrite andb_false_r. simpl.
  destruct (negb (String.eqb (method req) "GET")
            && negb (String.eqb (method req) "HEAD"));
    replace (code =? 204) with false by lia;
    replace (code =? 304) with false by lia; reflexivity.
Qed.

(** The answer to an unconditional request is sent as it is. *)
Lemma sent_unconditional (req : Request) (r : Response) :
  unconditional req -> status r <> 204 -> status r <> 304 ->
  sent req r = r.
Proof.
  intros [Hn Hm] H204 H304. unfold sent, req_fresh.
  destruct r as [code cs b]. simpl in *. destruct b; try reflexivity.
  rewrite (fresh_unconditional _ _ Hn Hm).
  replace (if negb (String.eqb (method req) "GET")
              && negb (String.eqb (method req) "HEAD")
           then false
           else if (200 <=? code) && (code <? 300) || (code =? 304)
                then false else false) with false
    by (repeat case_match; reflexivity).
  replace (code =? 204) with false by lia.
  replace (code =? 304) with false by lia. reflexivity.
Qed.

(** [res.send] keeps the status or answers 304, and keeps the cookies. *)
Lemma sent_status (req : Request) (r : Response) :
  (status (sent req r) = status r \/ status (sent req r) = 304)
  /\ cookies (sent req r) = cookies r.
Proof.
  unfold sent. destruct (body r); simpl; [tauto| |tauto].
  destruct (req_fresh req (status r) (etag <$> JSON_stringify v)); tauto.
Qed.

(** [If-None-Match: *] on a GET, without If-Modified-Since and
    Cache-Control, turns a 200 into a 304 without a body. *)
Lemma sent_if_none_match_any (req : Request) (cs : list SetCookie) (v : JSValue) :
  method req = "GET" ->
  headers req !! "if-none-match" = Some "*" ->
  headers req !! "if-modified-since" = None ->
  headers req !! "cache-control" = None ->
  sent req {| status := 200; cookies := cs; body := Json v |}
  = {| status := 304; cookies := cs; body := NoBody |}.
Proof.
  intros Hg Hn Hm Hc. unfold sent, req_fresh. simpl. rewrite Hg. simpl.
  now rewrite (fresh_any _ _ Hn Hm Hc).
Qed.

End Sending.

(** ** [readSession] *)

Section ReadSession.

Context `{Platform}.

Lemma read_payload_caught (now : Z) (b64 : string) :
  exists v, try_catch (read_payload now b64) (fun _ => Ret JNull) = Ret v.
Proof.
  destruct (read_payload now b64); simpl; eauto.
Qed.

Lemma readSession_returns (env : Env) (now : Z) (req : Request) :
  exists v, readSession env now req = Ret v.
Proof.
  unfold readSession.
  repeat case_match; eauto using read_payload_caught.
Qed.

(** What [readSession] does with a token that is present, non-empty,
    under a configured secret. *)
Lemma readSession_token (env : Env) (now : Z) (req : Request)
    (token secret : string) :
  parseCookies (req_header req "cookie") !! "admin_session" = Some token ->
  token <> "" ->
  ADMIN_JWT_SECRET env = Some secret ->
  secret <> "" ->
  readSession env now req =
    match split token "." with
    | [b64; sig] =>
        if String.eqb b64 "" || String.eqb sig "" then Ret JNull
        else if String.eqb sig (hmac_sha256_base64url secret b64)
             then try_catch (read_payload now b64) (fun _ => Ret JNull)
             else Ret JNull
    | _ => Ret JNull
    end.
Proof.
  intros Hc Ht Hs Hne. unfold readSession. rewrite Hc, Hs. simpl.
  apply String.eqb_neq in Ht, Hne. rewrite Ht, Hne.
  destruct (split token ".") as [|b64 [|sig [|x rest]]]; simpl; try reflexivity.
  destruct (String.eqb b64 "" || String.eqb sig ""); [reflexivity|].
  now destruct (String.eqb sig (hmac_sha256_base64url secret b64)).
Qed.

Lemma readSession_malformed (env : Env) (now : Z) (req : Request)
    (token : string) :
  parseCookies (req_header req "cookie") !! "admin_session" = Some token ->
  ~ well_formed_token token ->
  readSession env now req = Ret JNull.
Proof.
  intros Hc Hbad. unfold readSession. rewrite Hc.
  repeat case_match; try reflexivity. exfalso. apply Hbad.
  destruct (split token ".") as [|b64 [|sig [|x rest]]] eqn:E;
    simpl in *; try discriminate.
  exists b64, sig. split; [exact E|]. split.
  - intros ->. simpl in *. discriminate.
  - intros ->. rewrite orb_true_r in *. discriminate.
Qed.


Lemma readSession_no_secret (env : Env) (now : Z) (req : Request) :
  or_empty (ADMIN_JWT_SECRET env) = "" ->
  readSession env now req = Ret JNull.
Proof.
  intros Hs. unfold readSession. rewrite Hs. simpl.
  repeat case_match; reflexivity.
Qed.

(** How [/api/auth/me] answers, by the session [readSession] returned. *)
Lemma me_response (env : Env) (now : Z) (req : Request) (session : JSValue) :
  readSession env now req = Ret session ->
  (truthy session = false -> header_ok env req = false ->
   respond env req (me env now req) = unauthenticated)
  /\ (truthy session = false -> header_ok env req = true ->
      respond env req (me env now req) = sent req (authenticated dev_user))
  /\ (truthy session = true ->
      exists email name sub,
        get_prop session "email" = Ret email
        /\ get_prop session "name" = Ret name
        /\ get_prop session "sub" = Ret sub
        /\ respond env req (me env now req) =
             sent req (authenticated (JObj [("email", email); ("name", name);
                                            ("sub", sub)]))).
Proof.
  intros Hs. unfold respond, me, htry, eval, res_json, mbind, Handler_bind, hbind.
  rewrite Hs. repeat split.
  - intros Ht Hh. rewrite Ht, Hh. cbn -[sent].
    apply sent_error; lia.
  - intros Ht Hh. now rewrite Ht, Hh.
  - intros Ht. rewrite Ht. cbn -[sent].
    destruct session; try discriminate Ht; cbn -[sent]; eauto 10.
Qed.

(** The answer to an authenticated request is never a 401. *)
Lemma sent_authenticated (req : Request) (user : JSValue) :
  (status (sent req (authenticated user)) = 200
   \/ status (sent req (authenticated user)) = 304)
  /\ (unconditional req -> sent req (authenticated user) = authenticated user).
Proof.
  split; [exact (proj1 (sent_status req (authenticated user)))|].
  intros Hu. apply sent_unconditional; [exact Hu | discriminate | discriminate].
Qed.

End ReadSession.

(** ** Claims about [readSession] and [/api/auth/me] *)

Section SessionClaims.

Context `{Platform}.

(** C5. [readSession] returns for every request, it never throws; and a
    cookie value that does not split on the dot into exactly two
    non-empty parts (in particular one whose number of dots is not one)
    yields [null], so that without a valid admin header [/api/auth/me]
    answers the plain 401 of an unauthenticated request. *)
Theorem readSession_total_and_malformed_is_absent
    (env : Env) (now : Z) (req : Request) :
  (exists v, readSession env now req = Ret v)
  /\ (forall token,
        parseCookies (req_header req "cookie") !! "admin_session" = Some token ->
        ~ well_formed_token token ->
        readSession env now req = Ret JNull
        /\ (header_ok env req = false ->
            respond env req (me env now req) = unauthenticated))
  /\ (forall token,
        parseCookies (req_header req "cookie") !! "admin_session" = Some token ->
        count_char "." token <> 1%nat ->
        readSession env now req = Ret JNull).
Proof.
  split; [apply readSession_returns|]. split.
  - intros token Hc Hbad.
    assert (Hnull : readSession env now req = Ret JNull)
      by (eapply readSession_malformed; eauto).
    split; [exact Hnull|].
    intros Hh. now apply (me_response env now req JNull Hnull).
  - intros token Hc Hcount. eapply readSession_malformed; [exact Hc|].
    intros (b64 & sig & E & _). apply Hcount.
    pose proof (split_length token ".") as Hl. rewrite E in Hl. simpl in Hl.
    congruence.
Qed.

(** C4. With the session secret empty or absent, [readSession] returns
    [null] for every request, and the request is authenticated by
    [/api/auth/me] only through the admin header. *)
Theorem readSession_rejects_without_secret
    (env : Env) (now : Z) (req : Request) :
  ADMIN_JWT_SECRET env = None \/ ADMIN_JWT_SECRET env = Some "" ->
  readSession env now req = Ret JNull
  /\ (header_ok env req = false ->
      respond env req (me env now req) = unauthenticated).
Proof.
  intros Hs.
  assert (Hnull : readSession env now req = Ret JNull).
  { apply readSession_no_secret. now destruct Hs as [-> | ->]. }
  split; [exact Hnull|].
  intros Hh. now apply (me_response env now req JNull Hnull).
Qed.

(** C6. A token whose decoded payload has an [exp] that is missing, not
    a number, or a number below the current time in seconds is rejected:
    [readSession] returns [null], whether or not the signature
    verifies. *)
Theorem readSession_rejects_expired
    (env : Env) (now : Z) (req : Request) (token b64 sig : string)
    (payload : JSValue) :
  parseCookies (req_header req "cookie") !! "admin_session" = Some token ->
  split token "." = [b64; sig] ->
  JSON_parse (base64url_decode b64) = Ret payload ->
  (forall n, get_prop payload "exp" = Ret (JNum n) ->
             num_lt n (num_of_Z (now / 1000)) = true) ->
  readSession env now req = Ret JNull.
Proof.
  intros Hc Hsplit Hparse Hexp. unfold readSession. rewrite Hc, Hsplit. simpl.
  repeat case_match; try reflexivity.
  unfold read_payload, mbind, Exc_bind, JS.bind. rewrite Hparse.
  destruct (get_prop payload "exp") as [e|m] eqn:Hget; [|reflexivity].
  simpl. destruct (truthy e) eqn:Ht; simpl; [|reflexivity].
  destruct e; simpl; try reflexivity.
  now rewrite (Hexp n eq_refl).
Qed.

(** C1, as the code has it. A token whose signature verifies and whose
    [exp] is a non-zero number not below the current time in seconds is
    accepted whatever else its payload holds: [readSession] returns the
    decoded payload unchanged, also when [sub] or [email] is missing
    or empty, and [/api/auth/me] answers with the user fields read from
    that payload, as [res.send] sends them: 200 with that body to an
    unconditional request, 200 or 304 in general, never 401. *)
Theorem readSession_accepts_any_unexpired_payload
    (env : Env) (now : Z) (req : Request) (token b64 sig secret : string)
    (payload : JSValue) (n : JSNumber) :
  parseCookies (req_header req "cookie") !! "admin_session" = Some token ->
  split token "." = [b64; sig] ->
  b64 <> "" ->
  ADMIN_JWT_SECRET env = Some secret ->
  secret <> "" ->
  sig = hmac_sha256_base64url secret b64 ->
  sig <> "" ->
  JSON_parse (base64url_decode b64) = Ret payload ->
  get_prop payload "exp" = Ret (JNum n) ->
  truthy (JNum n) = true ->
  num_lt n (num_of_Z (now / 1000)) = false ->
  readSession env now req = Ret payload
  /\ exists email name sub,
       get_prop payload "email" = Ret email
       /\ get_prop payload "name" = Ret name
       /\ get_prop payload "sub" = Ret sub
       /\ respond env req (me env now req) =
            sent req (authenticated (JObj [("email", email); ("name", name);
                                           ("sub", sub)]))
       /\ (unconditional req ->
           respond env req (me env now req) =
             authenticated (JObj [("email", email); ("name", name);
                                  ("sub", sub)]))
       /\ (status (respond env req (me env now req)) = 200
           \/ status (respond env req (me env now req)) = 304).
Proof.
  intros Hc Hsplit Hb Hs Hne Hsig Hsne Hparse Hget Ht Hlt.
  assert (Htok : token <> "").
  { intros ->. simpl in Hsplit. discriminate. }
  assert (Hread : readSession env now req = Ret payload).
  { rewrite (readSession_token env now req token secret Hc Htok Hs Hne).
    rewrite Hsplit.
    apply String.eqb_neq in Hb, Hsne. rewrite Hb, Hsne. simpl.
    rewrite <- Hsig, String.eqb_refl.
    unfold read_payload, mbind, Exc_bind, JS.bind.
    rewrite Hparse, Hget. rewrite Ht. simpl. now rewrite Hlt. }
  split; [exact Hread|].
  destruct (proj2 (proj2 (me_response env now req payload Hread)))
    as (email & name & sub & He & Hn & Hsub & Hr).
  { destruct payload; simpl in Hget; try discriminate; reflexivity. }
  exists email, name, sub. rewrite Hr.
  destruct (sent_authenticated req
              (JObj [("email", email); ("name", name); ("sub", sub)]))
    as [Hst Hun].
  repeat (split; [assumption|]). split; [reflexivity|]. split; assumption.
Qed.


End SessionClaims.

(** ** Runs of [readSession] and [/api/auth/me] on the platform of Node *)

(** The tokens used below are the ones the callback would mint. *)
Example token_of_payload_exp_only :
  Scenario.token_of "jwt-secret" Scenario.payload_exp_only
  = "eyJleHAiOjk5OTk5OTk5OTl9.MQoVKEJV5Qh30ONFWwsfNL1A8DN0g5aksqdzX8XTMwA".
Proof. vm_compute. reflexivity. Qed.

Example token_of_payload_expired :
  Scenario.token_of "jwt-secret" Scenario.payload_expired
  = "eyJzdWIiOiIxMDgiLCJlbWFpbCI6ImFubkBzaG9wLmV4YW1wbGUiLCJleHAiOjEwMDAwMDAwMDEsIm5hbWUiOiJBbm4ifQ.vcX6uYJkB1W3ZQwTAYT59MchRI-sc84soSJJDAQmtZs".
Proof. vm_compute. reflexivity. Qed.

Example token_of_payload_valid_empty_key :
  Scenario.token_of "" Scenario.payload_valid
  = "eyJzdWIiOiIxMDgiLCJlbWFpbCI6ImFubkBzaG9wLmV4YW1wbGUiLCJleHAiOjk5OTk5OTk5OTksIm5hbWUiOiJBbm4ifQ.1Ha3fd0LrCQ5PlzK8GI4mqIS080QA7mQRloeiXREBBs".
Proof. vm_compute. reflexivity. Qed.

(** A correctly signed, unexpired, complete session is read back. *)
Example readSession_reads_minted_session :
  readSession Scenario.env Scenario.now
    (Scenario.with_cookie (Scenario.token_of "jwt-secret" Scenario.payload_valid))
  = Ret Scenario.payload_valid.
Proof. vm_compute. reflexivity. Qed.

(** A cookie with two dots, on a deployment with a session secret. *)
Lemma readSession_malformed_run :
  (exists v,
     readSession Scenario.env Scenario.now (Scenario.with_cookie "e30.e30.e30")
     = Ret v)
  /\ readSession Scenario.env Scenario.now (Scenario.with_cookie "e30.e30.e30")
     = Ret JNull
  /\ respond Scenario.env (Scenario.with_cookie "e30.e30.e30")
       (me Scenario.env Scenario.now (Scenario.with_cookie "e30.e30.e30"))
     = unauthenticated
  /\ count_char "." "e30.e30.e30" = 2%nat.
Proof.
  destruct (readSession_total_and_malformed_is_absent Scenario.env Scenario.now
              (Scenario.with_cookie "e30.e30.e30")) as (Hret & Hbad & Hcount).
  split; [exact Hret|].
  destruct (Hbad "e30.e30.e30") as [Hnull Hme].
  - vm_compute. reflexivity.
  - intros (b64 & sig & E & _). vm_compute in E. discriminate.
  - split; [|split; [|reflexivity]].
    + apply (Hcount "e30.e30.e30"); [vm_compute; reflexivity|].
      vm_compute. discriminate.
    + apply Hme. vm_compute. reflexivity.
Defined.

(** A complete, unexpired payload signed with the empty string as key,
    presented to a deployment without a session secret. *)
Lemma readSession_without_secret_run :
  readSession Scenario.env_no_session_secret Scenario.now
    (Scenario.with_cookie
       "eyJzdWIiOiIxMDgiLCJlbWFpbCI6ImFubkBzaG9wLmV4YW1wbGUiLCJleHAiOjk5OTk5OTk5OTksIm5hbWUiOiJBbm4ifQ.1Ha3fd0LrCQ5PlzK8GI4mqIS080QA7mQRloeiXREBBs")
  = Ret JNull
  /\ respond Scenario.env_no_session_secret
       (Scenario.with_cookie
          "eyJzdWIiOiIxMDgiLCJlbWFpbCI6ImFubkBzaG9wLmV4YW1wbGUiLCJleHAiOjk5OTk5OTk5OTksIm5hbWUiOiJBbm4ifQ.1Ha3fd0LrCQ5PlzK8GI4mqIS080QA7mQRloeiXREBBs")
       (me Scenario.env_no_session_secret Scenario.now
          (Scenario.with_cookie
             "eyJzdWIiOiIxMDgiLCJlbWFpbCI6ImFubkBzaG9wLmV4YW1wbGUiLCJleHAiOjk5OTk5OTk5OTksIm5hbWUiOiJBbm4ifQ.1Ha3fd0LrCQ5PlzK8GI4mqIS080QA7mQRloeiXREBBs"))
     = unauthenticated.
Proof.
  destruct (readSession_rejects_without_secret Scenario.env_no_session_secret
              Scenario.now
              (Scenario.with_cookie
                 "eyJzdWIiOiIxMDgiLCJlbWFpbCI6ImFubkBzaG9wLmV4YW1wbGUiLCJleHAiOjk5OTk5OTk5OTksIm5hbWUiOiJBbm4ifQ.1Ha3fd0LrCQ5PlzK8GI4mqIS080QA7mQRloeiXREBBs"))
    as [Hnull Hme].
  - left. reflexivity.
  - split; [exact Hnull|]. apply Hme. vm_compute. reflexivity.
Defined.

(** A complete payload that expired in 2001, correctly signed. *)
Lemma readSession_expired_run :
  readSession Scenario.env Scenario.now
    (Scenario.with_cookie
       "eyJzdWIiOiIxMDgiLCJlbWFpbCI6ImFubkBzaG9wLmV4YW1wbGUiLCJleHAiOjEwMDAwMDAwMDEsIm5hbWUiOiJBbm4ifQ.vcX6uYJkB1W3ZQwTAYT59MchRI-sc84soSJJDAQmtZs")
  = Ret JNull.
Proof.
  apply (readSession_rejects_expired Scenario.env Scenario.now _
           "eyJzdWIiOiIxMDgiLCJlbWFpbCI6ImFubkBzaG9wLmV4YW1wbGUiLCJleHAiOjEwMDAwMDAwMDEsIm5hbWUiOiJBbm4ifQ.vcX6uYJkB1W3ZQwTAYT59MchRI-sc84soSJJDAQmtZs"
           "eyJzdWIiOiIxMDgiLCJlbWFpbCI6ImFubkBzaG9wLmV4YW1wbGUiLCJleHAiOjEwMDAwMDAwMDEsIm5hbWUiOiJBbm4ifQ"
           "vcX6uYJkB1W3ZQwTAYT59MchRI-sc84soSJJDAQmtZs"
           Scenario.payload_expired).
  - vm_compute. reflexivity.
  - vm_compute. reflexivity.
  - vm_compute. reflexivity.
  - intros n Hn. vm_compute in Hn. injection Hn as <-. vm_compute. reflexivity.
Defined.

(** The same token before its expiry, in its last second, and in the
    second after. *)
Example readSession_expiry_boundary_run :
  let req := Scenario.with_cookie
    (Scenario.token_of "jwt-secret" Scenario.payload_expired) in
  readSession Scenario.env 999999999000 req = Ret Scenario.payload_expired
  /\ readSession Scenario.env 1000000001999 req = Ret Scenario.payload_expired
  /\ readSession Scenario.env 1000000002000 req = Ret JNull.
Proof. cbv zeta. repeat split; vm_compute; reflexivity. Qed.

(** Payloads without a numeric [exp], correctly signed. *)
Example readSession_exp_not_a_number_run :
  map (fun payload =>
         readSession Scenario.env Scenario.now
           (Scenario.with_cookie (Scenario.token_of "jwt-secret" payload)))
    [JObj [("sub", JStr "108"); ("email", JStr "ann@shop.example")];
     JObj [("exp", JStr "9999999999")];
     JObj [("exp", JBool true)];
     JObj [("exp", JNum (Dec 0 0))];
     JArr [];
     JNull]
  = [Ret JNull; Ret JNull; Ret JNull; Ret JNull; Ret JNull; Ret JNull].
Proof. vm_compute. reflexivity. Qed.

(** The payload [{ exp: 9999999999 }], without [sub] and [email],
    correctly signed: it is returned as the session and
    [/api/auth/me] answers 200. *)
Lemma readSession_accepts_payload_without_identity :
  let req := Scenario.with_cookie
    "eyJleHAiOjk5OTk5OTk5OTl9.MQoVKEJV5Qh30ONFWwsfNL1A8DN0g5aksqdzX8XTMwA" in
  readSession Scenario.env Scenario.now req = Ret Scenario.payload_exp_only
  /\ readSession Scenario.env Scenario.now req <> Ret JNull
  /\ get_prop Scenario.payload_exp_only "sub" = Ret JUndefined
  /\ get_prop Scenario.payload_exp_only "email" = Ret JUndefined
  /\ respond Scenario.env req (me Scenario.env Scenario.now req)
     = authenticated (JObj [("email", JUndefined); ("name", JUndefined);
                            ("sub", JUndefined)])
  /\ respond Scenario.env req (me Scenario.env Scenario.now req)
     <> unauthenticated.
Proof.
  cbv zeta.
  assert (Hread :
    readSession Scenario.env Scenario.now
      (Scenario.with_cookie
         "eyJleHAiOjk5OTk5OTk5OTl9.MQoVKEJV5Qh30ONFWwsfNL1A8DN0g5aksqdzX8XTMwA")
    = Ret Scenario.payload_exp_only) by (vm_compute; reflexivity).
  assert (Hme :
    respond Scenario.env
      (Scenario.with_cookie
         "eyJleHAiOjk5OTk5OTk5OTl9.MQoVKEJV5Qh30ONFWwsfNL1A8DN0g5aksqdzX8XTMwA")
      (me Scenario.env Scenario.now
         (Scenario.with_cookie
            "eyJleHAiOjk5OTk5OTk5OTl9.MQoVKEJV5Qh30ONFWwsfNL1A8DN0g5aksqdzX8XTMwA"))
    = authenticated (JObj [("email", JUndefined); ("name", JUndefined);
                           ("sub", JUndefined)])) by (vm_compute; reflexivity).
  rewrite Hread, Hme. repeat split; discriminate.
Qed.

(** The same request through the general statement. *)
Lemma readSession_accepts_run :
  let req := Scenario.with_cookie
    "eyJleHAiOjk5OTk5OTk5OTl9.MQoVKEJV5Qh30ONFWwsfNL1A8DN0g5aksqdzX8XTMwA" in
  readSession Scenario.env Scenario.now req = Ret Scenario.payload_exp_only
  /\ respond Scenario.env req (me Scenario.env Scenario.now req)
     = authenticated (JObj [("email", JUndefined); ("name", JUndefined);
                            ("sub", JUndefined)]).
Proof.
  cbv zeta.
  pose proof (readSession_accepts_any_unexpired_payload Scenario.env
                Scenario.now
                (Scenario.with_cookie "eyJleHAiOjk5OTk5OTk5OTl9.MQoVKEJV5Qh30ONFWwsfNL1A8DN0g5aksqdzX8XTMwA")
                "eyJleHAiOjk5OTk5OTk5OTl9.MQoVKEJV5Qh30ONFWwsfNL1A8DN0g5aksqdzX8XTMwA"
                "eyJleHAiOjk5OTk5OTk5OTl9"
                "MQoVKEJV5Qh30ONFWwsfNL1A8DN0g5aksqdzX8XTMwA"
                "jwt-secret" Scenario.payload_exp_only (Dec 9999999999 0))
    as Hrun.
  specialize (Hrun ltac:(vm_compute; reflexivity)).
  specialize (Hrun ltac:(vm_compute; reflexivity)).
  specialize (Hrun ltac:(discriminate)).
  specialize (Hrun ltac:(reflexivity)).
  specialize (Hrun ltac:(discriminate)).
  specialize (Hrun ltac:(vm_compute; reflexivity)).
  specialize (Hrun ltac:(discriminate)).
  specialize (Hrun ltac:(vm_compute; reflexivity)).
  specialize (Hrun ltac:(vm_compute; reflexivity)).
  specialize (Hrun ltac:(vm_compute; reflexivity)).
  specialize (Hrun ltac:(vm_compute; reflexivity)).
  destruct Hrun as (Hread & email & name & sub & He & Hn & Hs & _ & Hme & _).
  split; [exact Hread|].
  rewrite Hme by (split; vm_compute; reflexivity).
  injection He as <-. injection Hn as <-. injection Hs as <-. reflexivity.
Defined.


(** The entity tag of that answer, and the requests that name it: the
    tag itself, a list that holds it, another tag, and the tag with
    [Cache-Control: no-cache]. *)
Example me_entity_tag_run :
  let answer req :=
    respond Scenario.env req (me Scenario.env Scenario.now req) in
  let tag := String "W" (String "/" (String "034"
    ("5e-Tv0n3g7UdjEncbzywa9MTSbdV6k" +:+ String "034" ""))) in
  (etag <$> JSON_stringify (JObj [("authenticated", JBool true);
                                  ("user", dev_user)])) = Some tag
  /\ status (answer (Scenario.with_header_token_if_none_match "api-token" tag))
     = 304
  /\ status (answer (Scenario.with_header_token_if_none_match "api-token"
                       ("W/x, " +:+ tag)))
     = 304
  /\ status (answer (Scenario.with_header_token_if_none_match "api-token"
                       "W/x"))
     = 200
  /\ status (answer
               {| method := "GET";
                  headers := {[ "x-admin-token" := "api-token";
                                "if-none-match" := tag;
                                "cache-control" := "max-age=0, no-cache" ]};
                  query := ∅ |})
     = 200
  /\ status (answer
               {| method := "POST";
                  headers := {[ "x-admin-token" := "api-token";
                                "if-none-match" := "*" ]};
                  query := ∅ |})
     = 200
  /\ answer (Scenario.with_header_token_if_none_match "wrong" "*")
     = unauthenticated.
Proof. cbv zeta. repeat split; vm_compute; reflexivity. Qed.

(** A request with neither cookie nor header. *)
Example me_neither_run :
  respond Scenario.env {| method := "GET"; headers := ∅; query := ∅ |}
    (me Scenario.env Scenario.now
       {| method := "GET"; headers := ∅; query := ∅ |})
  = unauthenticated.
Proof. vm_compute. reflexivity. Qed.

(** ** The start handler *)

Lemma startsWith_slash (s : string) :
  startsWith s "/" = true <-> exists rest, s = String "/" rest.
Proof.
  destruct s as [|a s]; simpl.
  - split; [discriminate | intros [rest Hr]; discriminate].
  - rewrite andb_true_r. split.
    + intros Ha. apply Ascii.eqb_eq in Ha. subst. eauto.
    + intros [rest Hr]. injection Hr as -> _. apply Ascii.eqb_refl.
Qed.

Lemma start_state_cases (req : Request) :
  start_state req =
    match req_query req "from" with
    | JStr s => if startsWith s "/" then s else "/admin"
    | _ => "/admin"
    end.
Proof.
  unfold start_state.
  destruct (req_query req "from") as [| | | |s| | |]; try reflexivity.
  destruct (startsWith s "/") eqn:E; [|reflexivity].
  apply startsWith_slash in E as [rest ->]. reflexivity.
Qed.

(** The serializer of URLSearchParams writes URL characters and
    well-formed escapes only, so that the redirect of the start handler
    is sent as it is written. *)
Lemma url_clean_app (a b : string) :
  URL.url_clean a = true -> URL.url_clean b = true ->
  URL.url_clean (a +:+ b) = true.
Proof.
  intros Ha Hb. induction a as [|x a IH]; [exact Hb|].
  change (String x a +:+ b) with (String x (a +:+ b)).
  simpl in Ha |- *. destruct (URL.code x =? 37).
  - destruct a as [|h1 [|h2 rest]]; try discriminate.
    change (String h1 (String h2 rest) +:+ b)
      with (String h1 (String h2 (rest +:+ b))) in *.
    apply andb_prop in Ha as [Hh Ha]. rewrite Hh. exact (IH Ha).
  - apply andb_prop in Ha as [Hx Ha]. rewrite Hx. exact (IH Ha).
Qed.

Lemma url_clean_percent_byte (a : ascii) :
  URL.url_clean (URL.percent_byte a) = true.
Proof. destruct a as [[] [] [] [] [] [] [] []]; vm_compute; reflexivity. Qed.

Lemma url_clean_form_component (s : string) :
  URL.url_clean (URL.form_component s) = true.
Proof.
  induction s as [|a s IH]; [reflexivity|].
  cbn [URL.form_component]. apply url_clean_app; [|exact IH].
  destruct (URL.is_alnum (URL.code a)
            || URL.in_codes (URL.code a) [42; 45; 46; 95]) eqn:Ek.
  - unfold URL.is_alnum, URL.in_codes in Ek. simpl in Ek. simpl.
    replace (URL.code a =? 37) with false by lia.
    rewrite andb_true_r. unfold URL.url_char. lia.
  - destruct (URL.code a =? 32); [reflexivity|].
    apply url_clean_percent_byte.
Qed.

Lemma url_clean_URLSearchParams (entries : list (string * string)) :
  URL.url_clean (URL.URLSearchParams_toString entries) = true.
Proof.
  induction entries as [|[k v] rest IH]; [reflexivity|].
  assert (Hkv : URL.url_clean
                  (URL.form_component (URL.to_usv k) +:+ "="
                   +:+ URL.form_component (URL.to_usv v)) = true).
  { apply url_clean_app; [apply url_clean_form_component|].
    apply url_clean_app; [reflexivity | apply url_clean_form_component]. }
  destruct rest as [|e rest]; [exact Hkv|].
  change (URL.url_clean
            (URL.form_component (URL.to_usv k) +:+ "="
             +:+ URL.form_component (URL.to_usv v) +:+ "&"
             +:+ URL.URLSearchParams_toString (e :: rest)) = true).
  apply url_clean_app; [apply url_clean_form_component|].
  apply url_clean_app; [reflexivity|].
  apply url_clean_app; [apply url_clean_form_component|].
  apply url_clean_app; [reflexivity | exact IH].
Qed.

Section Start.

Context `{Platform}.

Lemma start_unconfigured (env : Env) (req : Request) :
  or_empty (GOOGLE_CLIENT_ID env) = ""
  \/ or_empty (GOOGLE_REDIRECT_URI env) = "" ->
  respond env req (start env req)
  = json_response 500 (error_body "Google OAuth not configured").
Proof.
  intros Hc. unfold respond, start.
  assert (E : String.eqb (or_empty (GOOGLE_CLIENT_ID env)) ""
              || String.eqb (or_empty (GOOGLE_REDIRECT_URI env)) "" = true).
  { destruct Hc as [-> | ->]; [reflexivity | apply orb_true_r]. }
  rewrite E.
  unfold htry, res_json, res_status, mbind, Handler_bind, hbind.
  cbn -[sent]. apply sent_error; lia.
Qed.

Lemma start_configured (env : Env) (req : Request) (clientId redirectUri : string) :
  GOOGLE_CLIENT_ID env = Some clientId -> clientId <> "" ->
  GOOGLE_REDIRECT_URI env = Some redirectUri -> redirectUri <> "" ->
  respond env req (start env req)
  = {| status := 302; cookies := [];
       body := Redirect
         ("https://accounts.google.com/o/oauth2/v2/auth?"
          +:+ URL.URLSearchParams_toString
                (start_params clientId redirectUri (start_state req))) |}.
Proof.
  intros Hc Hcn Hr Hrn. unfold respond, start. rewrite Hc, Hr.
  change (or_empty (Some clientId)) with clientId.
  change (or_empty (Some redirectUri)) with redirectUri.
  apply String.eqb_neq in Hcn, Hrn. rewrite Hcn, Hrn. cbn [orb].
  unfold htry, res_redirect. rewrite encodeUrl_clean; [reflexivity|].
  apply url_clean_app; [reflexivity | apply url_clean_URLSearchParams].
Qed.

(** C2, as the code has it. The start handler answers 500 with an error
    body, and does not redirect, when the OAuth client ID or the
    redirect URI is empty or absent; when both are configured it
    redirects to the identity provider, whether or not a client secret
    is configured. *)
Theorem start_requires_client_id_and_redirect_uri
    (env : Env) (req : Request) :
  (or_empty (GOOGLE_CLIENT_ID env) = ""
   \/ or_empty (GOOGLE_REDIRECT_URI env) = "" ->
   respond env req (start env req)
   = json_response 500 (error_body "Google OAuth not configured"))
  /\ (or_empty (GOOGLE_CLIENT_ID env) <> "" ->
      or_empty (GOOGLE_REDIRECT_URI env) <> "" ->
      status (respond env req (start env req)) = 302
      /\ exists url, body (respond env req (start env req)) = Redirect url).
Proof.
  split; [apply start_unconfigured|].
  intros Hc Hr.
  destruct (GOOGLE_CLIENT_ID env) as [c|] eqn:Ec; [|now elim Hc].
  destruct (GOOGLE_REDIRECT_URI env) as [u|] eqn:Eu; [|now elim Hr].
  rewrite (start_configured env req c u Ec Hc Eu Hr). simpl. eauto.
Qed.

(** C3. The [state] of the start handler equals the [from] query value
    exactly when that value is a string beginning with a slash; for
    every other value it is [/admin]; and it is the [state] parameter
    of the redirect. *)
Theorem start_state_is_from_iff_leading_slash (req : Request) :
  (JStr (start_state req) = req_query req "from"
   <-> exists s, req_query req "from" = JStr s /\ startsWith s "/" = true)
  /\ ((~ exists s, req_query req "from" = JStr s /\ startsWith s "/" = true) ->
      start_state req = "/admin")
  /\ (forall env clientId redirectUri,
        GOOGLE_CLIENT_ID env = Some clientId -> clientId <> "" ->
        GOOGLE_REDIRECT_URI env = Some redirectUri -> redirectUri <> "" ->
        body (respond env req (start env req))
        = Redirect
            ("https://accounts.google.com/o/oauth2/v2/auth?"
             +:+ URL.URLSearchParams_toString
                   [("response_type", "code"); ("client_id", clientId);
                    ("redirect_uri", redirectUri);
                    ("scope", "openid email profile");
                    ("state", start_state req);
                    ("access_type", "offline"); ("prompt", "consent")])).
Proof.
  rewrite start_state_cases. repeat split.
  - intros E. destruct (req_query req "from") as [| | | |s| | |];
      try discriminate E.
    exists s. split; [reflexivity|].
    destruct (startsWith s "/") eqn:Es; [reflexivity|].
    injection E as <-. discriminate Es.
  - intros (s & -> & ->). reflexivity.
  - intros Hno. destruct (req_query req "from") as [| | | |s| | |];
      try reflexivity.
    destruct (startsWith s "/") eqn:Es; [|reflexivity].
    exfalso. apply Hno. eauto.
  - intros env clientId redirectUri Hc Hcn Hr Hrn.
    rewrite (start_configured env req clientId redirectUri Hc Hcn Hr Hrn).
    simpl. now rewrite start_state_cases.
Qed.

End Start.

(** The two requests of the open-redirect defence. *)
Lemma start_state_run :
  start_state (Scenario.with_query "from" (JStr "https://evil.example/x"))
  = "/admin"
  /\ start_state (Scenario.with_query "from" (JStr "/admin/products"))
     = "/admin/products"
  /\ start_state {| method := "GET"; headers := ∅; query := ∅ |} = "/admin"
  /\ start_state (Scenario.with_query "from" (JStr "")) = "/admin"
  /\ body (respond Scenario.env
             (Scenario.with_query "from" (JStr "https://evil.example/x"))
             (start Scenario.env
                (Scenario.with_query "from" (JStr "https://evil.example/x"))))
     = Redirect
         "https://accounts.google.com/o/oauth2/v2/auth?response_type=code&client_id=client-1.apps.googleusercontent.com&redirect_uri=https%3A%2F%2Fshop.example%2Fapi%2Fauth%2Fgoogle%2Fcallback&scope=openid+email+profile&state=%2Fadmin&access_type=offline&prompt=consent".
Proof.
  split; [|split; [|split; [|split]]].
  - apply (proj1 (proj2 (start_state_is_from_iff_leading_slash
                           (Scenario.with_query "from"
                              (JStr "https://evil.example/x"))))).
    intros (s & Hs & Hslash). vm_compute in Hs. injection Hs as <-.
    discriminate Hslash.
  - assert (E : JStr (start_state
                        (Scenario.with_query "from" (JStr "/admin/products")))
                = JStr "/admin/products").
    { apply (proj1 (start_state_is_from_iff_leading_slash
                      (Scenario.with_query "from" (JStr "/admin/products")))).
      exists "/admin/products". split; reflexivity. }
    exact (f_equal (fun v => match v with JStr x => x | _ => "" end) E).
  - apply (proj1 (proj2 (start_state_is_from_iff_leading_slash
                           {| method := "GET"; headers := ∅; query := ∅ |}))).
    intros (s & Hs & _). vm_compute in Hs. discriminate Hs.
  - apply (proj1 (proj2 (start_state_is_from_iff_leading_slash
                           (Scenario.with_query "from" (JStr ""))))).
    intros (s & Hs & Hslash). vm_compute in Hs. injection Hs as <-.
    discriminate Hslash.
  - rewrite (proj2 (proj2 (start_state_is_from_iff_leading_slash
                             (Scenario.with_query "from"
                                (JStr "https://evil.example/x"))))
               Scenario.env "client-1.apps.googleusercontent.com"
               "https://shop.example/api/auth/google/callback");
      try reflexivity; discriminate.
Defined.

(** Without a client secret, the client ID and the redirect URI being
    configured, the start handler redirects. *)
Lemma start_redirects_without_client_secret :
  GOOGLE_CLIENT_SECRET Scenario.env_no_client_secret = None
  /\ respond Scenario.env_no_client_secret
       (Scenario.with_query "from" (JStr "/admin/products"))
       (start Scenario.env_no_client_secret
          (Scenario.with_query "from" (JStr "/admin/products")))
     = {| status := 302; cookies := [];
          body := Redirect
            "https://accounts.google.com/o/oauth2/v2/auth?response_type=code&client_id=client-1.apps.googleusercontent.com&redirect_uri=https%3A%2F%2Fshop.example%2Fapi%2Fauth%2Fgoogle%2Fcallback&scope=openid+email+profile&state=%2Fadmin%2Fproducts&access_type=offline&prompt=consent" |}
  /\ status (respond Scenario.env_no_client_secret
               (Scenario.with_query "from" (JStr "/admin/products"))
               (start Scenario.env_no_client_secret
                  (Scenario.with_query "from" (JStr "/admin/products"))))
     <> 500.
Proof.
  split; [reflexivity|].
  assert (E : respond Scenario.env_no_client_secret
       (Scenario.with_query "from" (JStr "/admin/products"))
       (start Scenario.env_no_client_secret
          (Scenario.with_query "from" (JStr "/admin/products")))
     = {| status := 302; cookies := [];
          body := Redirect
            "https://accounts.google.com/o/oauth2/v2/auth?response_type=code&client_id=client-1.apps.googleusercontent.com&redirect_uri=https%3A%2F%2Fshop.example%2Fapi%2Fauth%2Fgoogle%2Fcallback&scope=openid+email+profile&state=%2Fadmin%2Fproducts&access_type=offline&prompt=consent" |})
    by (vm_compute; reflexivity).
  rewrite E. split; [reflexivity | discriminate].
Qed.

(** The start handler on a deployment without a redirect URI, and on
    the configured one. *)
Lemma start_unconfigured_run :
  respond
    {| GOOGLE_CLIENT_ID := Some "client-1.apps.googleusercontent.com";
       GOOGLE_CLIENT_SECRET := Some "oauth-secret";
       GOOGLE_REDIRECT_URI := None;
       ADMIN_JWT_SECRET := None; ADMIN_API_TOKEN := None; NODE_ENV := None |}
    (Scenario.with_query "from" (JStr "/admin"))
    (start
       {| GOOGLE_CLIENT_ID := Some "client-1.apps.googleusercontent.com";
          GOOGLE_CLIENT_SECRET := Some "oauth-secret";
          GOOGLE_REDIRECT_URI := None;
          ADMIN_JWT_SECRET := None; ADMIN_API_TOKEN := None; NODE_ENV := None |}
       (Scenario.with_query "from" (JStr "/admin")))
  = json_response 500 (error_body "Google OAuth not configured")
  /\ status (respond Scenario.env (Scenario.with_query "from" (JStr "/admin"))
               (start Scenario.env (Scenario.with_query "from" (JStr "/admin"))))
     = 302.
Proof.
  split.
  - apply (proj1 (start_requires_client_id_and_redirect_uri _ _)).
    right. reflexivity.
  - apply (proj2 (start_requires_client_id_and_redirect_uri Scenario.env
                    (Scenario.with_query "from" (JStr "/admin"))));
      vm_compute; discriminate.
Defined.

(** ** The callback handler *)

Section Callback.

Context `{Platform}.

Variable fetch : FetchRequest -> Exc FetchResponse.

(** Case analysis on the next thing the handler evaluates. *)
Ltac step :=
  match goal with
  | |- context [match ?x with _ => _ end] =>
      lazymatch x with
      | context [match _ with _ => _ end] => fail
      | _ => destruct x eqn:?
      end
  | |- context [if ?b then _ else _] =>
      lazymatch b with
      | context [if _ then _ else _] => fail
      | _ => destruct b eqn:?
      end
  end.

Ltac run_handler :=
  unfold callback, callback_try, htry, eval, res_status, res_json, res_cookie,
    res_redirect, mbind, Handler_bind, hbind;
  cbn -[sent].

(** The handler along the path the hypotheses describe. *)
Ltac follow :=
  repeat (cbn -[sent];
          match goal with
          | E : ?x = _ |- context [?x] => rewrite E
          end);
  cbn -[sent]; rewrite ?sent_error by lia.

(** Every run of the callback returns, and ends in one of three ways: a
    redirect with exactly the minted session cookie, an error response
    without any cookie, or, when [res.redirect] itself throws, the
    answer of the [catch] block after the cookie was set. *)
Lemma callback_outcome (env : Env) (now : Z) (req : Request) :
  let dest := callback_dest (or_else (req_query req "state") (JStr "")) in
  exists r, callback fetch env now req fresh = (r, Ret tt)
  /\ ((exists v, body r = Json v)
      /\ (status r = 400 \/ status r = 401 \/ status r = 500)
      /\ cookies r = []
      \/ (exists sub email name json,
            sub <> "" /\ email <> ""
            /\ JSON_stringify
                 (session_payload sub email (now / 1000 + 604800) name)
               = Some json
            /\ cookies r = [minted_cookie env json])
         /\ ((exists location,
                encodeUrl dest = Ret location
                /\ status r = 302 /\ body r = Redirect location)
             \/ (exists message,
                   encodeUrl dest = Throw message
                   /\ status r = 500
                   /\ body r = Json (JObj [("error", JStr "Google auth error");
                                           ("message", JStr message)])))).
Proof.
  cbv zeta. run_handler.
  repeat (step; cbn -[sent]); rewrite ?sent_error by lia;
    eexists; (split; [reflexivity|]); cbn -[sent];
    try (left; split; [eauto | split; [tauto | reflexivity]]).
  - right. split.
    + match goal with
      | Ho : _ || _ = false |- _ => apply orb_false_elim in Ho as [He Hs]
      end.
      apply String.eqb_neq in He, Hs.
      match goal with
      | Hj : JSON_stringify (session_payload ?s ?e _ ?n) = Some ?j |- _ =>
          exists s, e, n, j; repeat (split; [assumption|])
      end.
      reflexivity.
    + left. eexists. repeat split.
  - right. split.
    + match goal with
      | Ho : _ || _ = false |- _ => apply orb_false_elim in Ho as [He Hs]
      end.
      apply String.eqb_neq in He, Hs.
      match goal with
      | Hj : JSON_stringify (session_payload ?s ?e _ ?n) = Some ?j |- _ =>
          exists s, e, n, j; repeat (split; [assumption|])
      end.
      reflexivity.
    + right. eexists. repeat split.
Qed.

(** C8. The callback answers each of its error conditions without
    setting a cookie: a missing code or configuration value with 400; a
    token exchange that fails with 401, and one that throws with 500;
    an identity assertion that cannot be fetched or is refused with 500
    and 401; an audience that differs from the configured client ID
    with 401, and one whose conversion to a string throws with 500; a
    missing email or subject with 401; and every exception before the
    cookie is set with 500. Only when all of these checks have passed
    does it set the cookie and redirect. Every run returns; a response
    that is not the redirect carries no cookie, unless the encoding of
    the redirect target itself threw after the cookie was set. *)
Theorem callback_errors_set_no_cookie (env : Env) (now : Z) (req : Request) :
  let code := or_else (req_query req "code") (JStr "") in
  let state := or_else (req_query req "state") (JStr "") in
  let clientId := or_empty (GOOGLE_CLIENT_ID env) in
  let clientSecret := or_empty (GOOGLE_CLIENT_SECRET env) in
  let redirectUri := or_empty (GOOGLE_REDIRECT_URI env) in
  let adminJwtSecret := or_empty (ADMIN_JWT_SECRET env) in
  let answers status v :=
    callback fetch env now req fresh = (json_response status v, Ret tt) in
  let throws message :=
    answers 500 (JObj [("error", JStr "Google auth error");
                       ("message", JStr message)]) in
  (truthy code = false \/ clientId = "" \/ clientSecret = ""
   \/ redirectUri = "" \/ adminJwtSecret = "" ->
   answers 400 (error_body "Invalid Google OAuth callback"))
  /\ (truthy code = true -> clientId <> "" -> clientSecret <> "" ->
      redirectUri <> "" -> adminJwtSecret <> "" ->
      (forall m,
         exchange_code fetch code clientId clientSecret redirectUri = Throw m ->
         throws m)
      /\ forall tokenRes tokenJson,
           exchange_code fetch code clientId clientSecret redirectUri
           = Ret (tokenRes, tokenJson) ->
           (ok tokenRes = false ->
            answers 401 (JObj [("error", JStr "Google token exchange failed");
                               ("detail", tokenJson)]))
           /\ (ok tokenRes = true ->
               (forall m, fetch_tokeninfo fetch tokenJson = Throw m -> throws m)
               /\ forall infoRes info,
                    fetch_tokeninfo fetch tokenJson = Ret (infoRes, info) ->
                    (ok infoRes = false ->
                     answers 401 (JObj [("error", JStr "Invalid Google ID token");
                                        ("detail", info)]))
                    /\ (ok infoRes = true ->
                        (forall m, audience info = Throw m -> throws m)
                        /\ forall audText,
                             audience info = Ret audText ->
                             (audText <> clientId ->
                              answers 401 (error_body "Mismatched audience"))
                             /\ (audText = clientId ->
                                 (forall m,
                                    string_claim info "email" = Throw m ->
                                    throws m)
                                 /\ forall email,
                                      string_claim info "email" = Ret email ->
                                      (forall m,
                                         string_claim info "sub" = Throw m ->
                                         throws m)
                                      /\ forall sub,
                                           string_claim info "sub" = Ret sub ->
                                           (email = "" \/ sub = "" ->
                                            answers 401
                                              (error_body
                                                 "Missing Google user info"))
                                           /\ (email <> "" -> sub <> "" ->
                                               (forall m,
                                                  string_claim info "name"
                                                  = Throw m ->
                                                  throws m)
                                               /\ forall name json location,
                                                    string_claim info "name"
                                                    = Ret name ->
                                                    JSON_stringify
                                                      (session_payload sub email
                                                         (now / 1000 + 604800)
                                                         name)
                                                    = Some json ->
                                                    encodeUrl
                                                      (callback_dest state)
                                                    = Ret location ->
                                                    callback fetch env now req
                                                      fresh
                                                    = ({| status := 302;
                                                          cookies :=
                                                            [minted_cookie env
                                                               json];
                                                          body :=
                                                            Redirect location |},
                                                       Ret tt))))))
  /\ (exists r,
        callback fetch env now req fresh = (r, Ret tt)
        /\ (status r = 302 \/ status r = 400 \/ status r = 401
            \/ status r = 500)
        /\ (cookies r <> [] ->
            status r = 302
            \/ exists m, encodeUrl (callback_dest state) = Throw m)
        /\ (status r <> 302 ->
            (forall m, encodeUrl (callback_dest state) <> Throw m) ->
            cookies r = [])).
Proof.
  cbv zeta. split; [|split].
  - intros Hmiss.
    assert (E : negb (truthy (or_else (req_query req "code") (JStr "")))
                || String.eqb (or_empty (GOOGLE_CLIENT_ID env)) ""
                || String.eqb (or_empty (GOOGLE_CLIENT_SECRET env)) ""
                || String.eqb (or_empty (GOOGLE_REDIRECT_URI env)) ""
                || String.eqb (or_empty (ADMIN_JWT_SECRET env)) "" = true).
    { destruct Hmiss as [-> | [-> | [-> | [-> | ->]]]];
        rewrite ?orb_true_r; reflexivity. }
    unfold callback. rewrite E. unfold res_status, res_json, mbind,
      Handler_bind, hbind. follow. reflexivity.
  - intros Hcode Hid Hsec Huri Hjwt.
    apply String.eqb_neq in Hid, Hsec, Huri, Hjwt.
    split; [intros m Hex; run_handler; follow; reflexivity|].
    intros tokenRes tokenJson Hex.
    split; [intros Hok; run_handler; follow; reflexivity|].
    intros Hok.
    split; [intros m Hinfo; run_handler; follow; reflexivity|].
    intros infoRes info Hinfo.
    split; [intros Hiok; run_handler; follow; reflexivity|].
    intros Hiok.
    split; [intros m Haud; run_handler; follow; reflexivity|].
    intros audText Haud.
    split.
    { intros Hne. apply String.eqb_neq in Hne.
      run_handler; follow; reflexivity. }
    intros ->.
    pose proof (String.eqb_refl (or_empty (GOOGLE_CLIENT_ID env))) as Hsame.
    split; [intros m Hemail; run_handler; follow; reflexivity|].
    intros email Hemail.
    split; [intros m Hsub; run_handler; follow; reflexivity|].
    intros sub Hsub. split.
    + intros Hempty.
      assert (E : String.eqb email "" || String.eqb sub "" = true)
        by (destruct Hempty as [-> | ->]; rewrite ?orb_true_r; reflexivity).
      run_handler; follow; reflexivity.
    + intros He Hs. apply String.eqb_neq in He, Hs.
      split; [intros m Hname; run_handler; follow; reflexivity|].
      intros name json location Hname Hjson Hloc.
      change (now / 1000 + 604800) with (now / 1000 + 7 * 24 * 60 * 60)
        in Hjson.
      run_handler; follow; reflexivity.
  - destruct (callback_outcome env now req) as (r & Hr & Hcases).
    exists r. split; [exact Hr|].
    destruct Hcases
      as [(_ & Hs & Hc)
         | (_ & [(l & Hl & Hs & _) | (m & Hm & Hs & _)])].
    + split; [tauto|]. split; [congruence | intros _ _; exact Hc].
    + split; [tauto|]. split; [now left | congruence].
    + split; [tauto|]. split; [right; eauto|].
      intros _ Hno. now elim (Hno m).
Qed.

(** C9, as the code has it. When the callback ends in the redirect, it
    has set exactly one cookie, [admin_session], HttpOnly, SameSite=Lax,
    Path=/, whose value is [b64 + "." + sig] where [b64] is the
    base64url form of the serialized payload and [sig] is the base64url
    HMAC-SHA256, keyed by the configured secret, of [b64] (of the
    encoded payload, not of the serialized payload); the payload's
    [exp] is the current time in seconds plus 604800. *)
Theorem callback_mints_signed_cookie
    (env : Env) (now : Z) (req : Request) (r : Response) :
  callback fetch env now req fresh = (r, Ret tt) ->
  status r = 302 ->
  exists sub email name json,
    sub <> "" /\ email <> ""
    /\ JSON_stringify (session_payload sub email (now / 1000 + 604800) name)
       = Some json
    /\ cookies r =
       [{| cookie_name := "admin_session";
           cookie_value :=
             base64url_encode json +:+ "." +:+
             hmac_sha256_base64url (or_empty (ADMIN_JWT_SECRET env))
               (base64url_encode json);
           cookie_options :=
             {| httpOnly := true;
                sameSite := "lax";
                secure := String.eqb (toLowerCase (or_empty (NODE_ENV env)))
                            "production";
                path := "/";
                maxAge := None |} |}].
Proof.
  intros Hr Hs.
  destruct (callback_outcome env now req) as (r' & Hr' & Hcases).
  rewrite Hr in Hr'. injection Hr' as <-.
  destruct Hcases as [(_ & Herr & _) | (Hmint & _)]; [|exact Hmint].
  rewrite Hs in Herr. destruct Herr as [E | [E | E]]; discriminate E.
Qed.

(** C10. A [from] or [state] string whose first character is a slash is
    used as it is, whatever follows the slash: the start handler takes
    it as [state] and puts it in the redirect to the identity provider,
    and the callback, when it succeeds, redirects the browser to it:
    the Location header is the string as [res.redirect] encodes it,
    which is the string itself when it is made of URL characters. *)
Theorem leading_slash_is_followed_verbatim
    (s : string) (env : Env) (now : Z) :
  startsWith s "/" = true ->
  (forall req,
     req_query req "from" = JStr s ->
     start_state req = s
     /\ forall clientId redirectUri,
          GOOGLE_CLIENT_ID env = Some clientId -> clientId <> "" ->
          GOOGLE_REDIRECT_URI env = Some redirectUri -> redirectUri <> "" ->
          respond env req (start env req)
          = {| status := 302; cookies := [];
               body := Redirect
                 ("https://accounts.google.com/o/oauth2/v2/auth?"
                  +:+ URL.URLSearchParams_toString
                        (start_params clientId redirectUri s)) |})
  /\ (forall req r,
        req_query req "state" = JStr s ->
        callback fetch env now req fresh = (r, Ret tt) ->
        status r = 302 ->
        callback_dest (or_else (req_query req "state") (JStr "")) = s
        /\ (exists location,
              encodeUrl s = Ret location /\ body r = Redirect location)
        /\ (URL.url_clean s = true -> body r = Redirect s)).
Proof.
  intros Hslash. split.
  - intros req Hq.
    assert (Hstate : start_state req = s).
    { rewrite start_state_cases, Hq, Hslash. reflexivity. }
    split; [exact Hstate|].
    intros clientId redirectUri Hc Hcn Hu Hun.
    rewrite (start_configured env req clientId redirectUri Hc Hcn Hu Hun).
    now rewrite Hstate.
  - intros req r Hq Hr Hs.
    assert (Hdest : callback_dest (or_else (req_query req "state") (JStr ""))
                    = s).
    { rewrite Hq. unfold or_else, callback_dest.
      apply startsWith_slash in Hslash as [rest ->]. reflexivity. }
    split; [exact Hdest|].
    destruct (callback_outcome env now req) as (r' & Hr' & Hcases).
    rewrite Hr in Hr'. injection Hr' as <-. rewrite Hdest in Hcases.
    destruct Hcases
      as [(_ & Herr & _)
         | (_ & [(l & Hl & _ & Hb) | (m & _ & Herr & _)])].
    + rewrite Hs in Herr. destruct Herr as [E | [E | E]]; discriminate E.
    + split; [eauto|].
      intros Hclean. rewrite (encodeUrl_clean s Hclean) in Hl. congruence.
    + congruence.
Qed.

End Callback.

(** ** Runs of the callback on the platform of Node *)

(** A successful login on 14 November 2023: the cookie expires seven days
    later, at 1700604800. *)
Example callback_success_run :
  callback (Scenario.google "client-1.apps.googleusercontent.com")
    Scenario.env Scenario.now (Scenario.callback_request "/admin/products")
    fresh
  = ({| status := 302;
        cookies :=
          [{| cookie_name := "admin_session";
              cookie_value :=
                "eyJzdWIiOiIxMDgiLCJlbWFpbCI6ImFubkBzaG9wLmV4YW1wbGUiLCJleHAiOjE3MDA2MDQ4MDAsIm5hbWUiOiJBbm4ifQ.Nrl2FeU2JayAVituwHiGoYzGAqY_bvhMhFC3WJO11pI";
              cookie_options :=
                {| httpOnly := true; sameSite := "lax"; secure := false;
                   path := "/"; maxAge := None |} |}];
        body := Redirect "/admin/products" |}, Ret tt).
Proof. vm_compute. reflexivity. Qed.

(** The session it minted is the one [readSession] reads back. *)
Example callback_then_readSession_run :
  readSession Scenario.env (Scenario.now + 1000)
    (Scenario.with_cookie
       "eyJzdWIiOiIxMDgiLCJlbWFpbCI6ImFubkBzaG9wLmV4YW1wbGUiLCJleHAiOjE3MDA2MDQ4MDAsIm5hbWUiOiJBbm4ifQ.Nrl2FeU2JayAVituwHiGoYzGAqY_bvhMhFC3WJO11pI")
  = Ret (JObj [("sub", JStr "108"); ("email", JStr "ann@shop.example");
               ("exp", JNum (Dec 1700604800 0)); ("name", JStr "Ann")]).
Proof. vm_compute. reflexivity. Qed.

(** The error paths on concrete requests: the identity provider
    describes the token as issued to another client; the request has no
    code; the provider refuses the code; the network is down. *)
Lemma callback_mismatched_audience_run :
  callback (Scenario.google "other-client.apps.googleusercontent.com")
    Scenario.env Scenario.now (Scenario.callback_request "/admin/products")
    fresh
  = (json_response 401 (error_body "Mismatched audience"), Ret tt)
  /\ callback (Scenario.google "client-1.apps.googleusercontent.com")
       Scenario.env Scenario.now
       (Scenario.with_query "state" (JStr "/admin/products")) fresh
     = (json_response 400 (error_body "Invalid Google OAuth callback"), Ret tt)
  /\ callback Scenario.google_refusing Scenario.env Scenario.now
       (Scenario.callback_request "/admin/products") fresh
     = (json_response 401
          (JObj [("error", JStr "Google token exchange failed");
                 ("detail", JObj [("error", JStr "invalid_grant")])]),
        Ret tt)
  /\ callback Scenario.offline Scenario.env Scenario.now
       (Scenario.callback_request "/admin/products") fresh
     = (json_response 500
          (JObj [("error", JStr "Google auth error");
                 ("message", JStr "fetch failed")]),
        Ret tt).
Proof.
  split; [|split; [|split]].
  - pose proof (proj1 (proj2 (callback_errors_set_no_cookie
                  (Scenario.google "other-client.apps.googleusercontent.com")
                  Scenario.env Scenario.now
                  (Scenario.callback_request "/admin/products")))) as Hrun.
    cbv zeta in Hrun.
    specialize (Hrun ltac:(vm_compute; reflexivity)
                  ltac:(vm_compute; discriminate) ltac:(vm_compute; discriminate)
                  ltac:(vm_compute; discriminate) ltac:(vm_compute; discriminate)).
    destruct Hrun as [_ Hrun].
    specialize (Hrun
      {| ok := true; json := Ret (JObj [("id_token", JStr "id.token.1")]) |}
      (JObj [("id_token", JStr "id.token.1")]) ltac:(vm_compute; reflexivity)).
    destruct Hrun as [_ Hrun].
    specialize (Hrun eq_refl). destruct Hrun as [_ Hrun].
    specialize (Hrun
      {| ok := true;
         json := Ret (JObj [("aud", JStr "other-client.apps.googleusercontent.com");
                            ("sub", JStr "108");
                            ("email", JStr "ann@shop.example");
                            ("name", JStr "Ann")]) |}
      (JObj [("aud", JStr "other-client.apps.googleusercontent.com");
             ("sub", JStr "108");
             ("email", JStr "ann@shop.example");
             ("name", JStr "Ann")]) ltac:(vm_compute; reflexivity)).
    destruct Hrun as [_ Hrun].
    specialize (Hrun eq_refl). destruct Hrun as [_ Hrun].
    specialize (Hrun "other-client.apps.googleusercontent.com"
                  ltac:(vm_compute; reflexivity)).
    destruct Hrun as [Hrun _].
    exact (Hrun ltac:(vm_compute; discriminate)).
  - apply (proj1 (callback_errors_set_no_cookie
                    (Scenario.google "client-1.apps.googleusercontent.com")
                    Scenario.env Scenario.now
                    (Scenario.with_query "state" (JStr "/admin/products")))).
    left. vm_compute. reflexivity.
  - pose proof (proj1 (proj2 (callback_errors_set_no_cookie
                  Scenario.google_refusing Scenario.env Scenario.now
                  (Scenario.callback_request "/admin/products")))) as Hrun.
    cbv zeta in Hrun.
    specialize (Hrun ltac:(vm_compute; reflexivity)
                  ltac:(vm_compute; discriminate) ltac:(vm_compute; discriminate)
                  ltac:(vm_compute; discriminate) ltac:(vm_compute; discriminate)).
    destruct Hrun as [_ Hrun].
    specialize (Hrun
      {| ok := false; json := Ret (JObj [("error", JStr "invalid_grant")]) |}
      (JObj [("error", JStr "invalid_grant")]) ltac:(vm_compute; reflexivity)).
    destruct Hrun as [Hrun _]. exact (Hrun eq_refl).
  - pose proof (proj1 (proj2 (callback_errors_set_no_cookie
                  Scenario.offline Scenario.env Scenario.now
                  (Scenario.callback_request "/admin/products")))) as Hrun.
    cbv zeta in Hrun.
    specialize (Hrun ltac:(vm_compute; reflexivity)
                  ltac:(vm_compute; discriminate) ltac:(vm_compute; discriminate)
                  ltac:(vm_compute; discriminate) ltac:(vm_compute; discriminate)).
    destruct Hrun as [Hrun _].
    exact (Hrun "fetch failed" ltac:(vm_compute; reflexivity)).
Defined.

(** The successful login through the general statement. *)
Lemma callback_mints_run :
  exists sub email name json,
    sub <> "" /\ email <> ""
    /\ JSON_stringify (session_payload sub email 1700604800 name) = Some json
    /\ cookies
         (fst (callback (Scenario.google "client-1.apps.googleusercontent.com")
                 Scenario.env Scenario.now
                 (Scenario.callback_request "/admin/products") fresh))
       = [{| cookie_name := "admin_session";
             cookie_value :=
               base64url_encode json +:+ "." +:+
               hmac_sha256_base64url "jwt-secret" (base64url_encode json);
             cookie_options :=
               {| httpOnly := true; sameSite := "lax"; secure := false;
                  path := "/"; maxAge := None |} |}].
Proof.
  apply (callback_mints_signed_cookie
           (Scenario.google "client-1.apps.googleusercontent.com")
           Scenario.env Scenario.now
           (Scenario.callback_request "/admin/products")
           (fst (callback (Scenario.google "client-1.apps.googleusercontent.com")
                   Scenario.env Scenario.now
                   (Scenario.callback_request "/admin/products") fresh))).
  - vm_compute. reflexivity.
  - vm_compute. reflexivity.
Defined.

(** In the cookie of the successful login the signature is the HMAC of
    the encoded payload; the HMAC of the serialized payload is another
    string. *)
Lemma callback_signature_is_not_over_serialized_payload :
  exists json,
    JSON_stringify (session_payload "108" "ann@shop.example" 1700604800 "Ann")
    = Some json
    /\ base64url_encode json
       = "eyJzdWIiOiIxMDgiLCJlbWFpbCI6ImFubkBzaG9wLmV4YW1wbGUiLCJleHAiOjE3MDA2MDQ4MDAsIm5hbWUiOiJBbm4ifQ"
    /\ hmac_sha256_base64url "jwt-secret" json
       = "hkIKc_8LVQnpFEAWxrq7YRm4AZjJL5xtLz3iD6zOUcw"
    /\ hmac_sha256_base64url "jwt-secret" (base64url_encode json)
       = "Nrl2FeU2JayAVituwHiGoYzGAqY_bvhMhFC3WJO11pI"
    /\ map cookie_value
         (cookies
            (fst (callback
                    (Scenario.google "client-1.apps.googleusercontent.com")
                    Scenario.env Scenario.now
                    (Scenario.callback_request "/admin/products") fresh)))
       = ["eyJzdWIiOiIxMDgiLCJlbWFpbCI6ImFubkBzaG9wLmV4YW1wbGUiLCJleHAiOjE3MDA2MDQ4MDAsIm5hbWUiOiJBbm4ifQ.Nrl2FeU2JayAVituwHiGoYzGAqY_bvhMhFC3WJO11pI"]
    /\ map cookie_value
         (cookies
            (fst (callback
                    (Scenario.google "client-1.apps.googleusercontent.com")
                    Scenario.env Scenario.now
                    (Scenario.callback_request "/admin/products") fresh)))
       <> [base64url_encode json +:+ "." +:+
           hmac_sha256_base64url "jwt-secret" json].
Proof.
  eexists. split; [vm_compute; reflexivity|].
  split; [vm_compute; reflexivity|].
  split; [vm_compute; reflexivity|].
  split; [vm_compute; reflexivity|].
  split; [vm_compute; reflexivity|].
  vm_compute. discriminate.
Qed.

(** A protocol-relative URL as [from] and as [state]. *)
Lemma leading_slash_run :
  start_state (Scenario.with_query "from" (JStr "//evil.example/x"))
  = "//evil.example/x"
  /\ respond Scenario.env
       (Scenario.with_query "from" (JStr "//evil.example/x"))
       (start Scenario.env
          (Scenario.with_query "from" (JStr "//evil.example/x")))
     = {| status := 302; cookies := [];
          body := Redirect
            "https://accounts.google.com/o/oauth2/v2/auth?response_type=code&client_id=client-1.apps.googleusercontent.com&redirect_uri=https%3A%2F%2Fshop.example%2Fapi%2Fauth%2Fgoogle%2Fcallback&scope=openid+email+profile&state=%2F%2Fevil.example%2Fx&access_type=offline&prompt=consent" |}
  /\ body (fst (callback
                 (Scenario.google "client-1.apps.googleusercontent.com")
                 Scenario.env Scenario.now
                 (Scenario.callback_request "//evil.example/x") fresh))
     = Redirect "//evil.example/x".
Proof.
  destruct (leading_slash_is_followed_verbatim
              (Scenario.google "client-1.apps.googleusercontent.com")
              "//evil.example/x" Scenario.env Scenario.now eq_refl)
    as [Hstart Hcallback].
  split; [|split].
  - apply (Hstart (Scenario.with_query "from" (JStr "//evil.example/x"))).
    vm_compute. reflexivity.
  - rewrite (proj2 (Hstart (Scenario.with_query "from"
                              (JStr "//evil.example/x")) eq_refl)
               "client-1.apps.googleusercontent.com"
               "https://shop.example/api/auth/google/callback");
      try reflexivity; discriminate.
  - apply (Hcallback (Scenario.callback_request "//evil.example/x")).
    + vm_compute. reflexivity.
    + vm_compute. reflexivity.
    + vm_compute. reflexivity.
    + vm_compute. reflexivity.
Defined.

(** A [state] with characters that are not URL characters: the Location
    header holds them escaped, and a percent sign that starts no escape
    as [%25]. *)
Example callback_encodes_location_run :
  map (fun state =>
         body (fst (callback
                      (Scenario.google "client-1.apps.googleusercontent.com")
                      Scenario.env Scenario.now
                      (Scenario.callback_request state) fresh)))
    ["/a b"; "/%zz"; "/admin?tab=1&q=%20x#top"; "https://evil.example/x"; ""]
  = [Redirect "/a%20b"; Redirect "/%25zz";
     Redirect "/admin?tab=1&q=%20x#top"; Redirect "/admin"; Redirect "/admin"].
Proof. vm_compute. reflexivity. Qed.

(** The logout handler clears the cookie with the options of the mint. *)
Example logout_run :
  let req := {| method := "POST";
                headers := {[ "if-none-match" := "*" ]}; query := ∅ |} in
  respond Scenario.env req (logout Scenario.env req)
  = {| status := 200;
       cookies :=
         [{| cookie_name := "admin_session"; cookie_value := "";
             cookie_options :=
               {| httpOnly := true; sameSite := "lax"; secure := false;
                  path := "/"; maxAge := Some 0 |} |}];
       body := Json (JObj [("ok", JBool true)]) |}.
Proof. vm_compute. reflexivity. Qed.

(** * Further properties *)

(** ** Strings *)

Lemma split_app (a b : string) (c : ascii) :
  split (a +:+ String c b) c = split a c ++ split b c.
Proof.
  induction a as [|x a IH]; simpl.
  - now rewrite Ascii.eqb_refl.
  - destruct (Ascii.eqb x c); [now rewrite IH|].
    rewrite IH. destruct (split a c) eqn:E; [|reflexivity].
    now apply split_not_nil in E.
Qed.

Lemma split_no_separator (s : string) (c : ascii) :
  count_char c s = 0%nat -> split s c = [s].
Proof.
  induction s as [|x s IH]; simpl; [reflexivity|].
  destruct (Ascii.eqb x c); [discriminate|].
  intros Hc. now rewrite (IH Hc).
Qed.

Lemma split_pieces_no_separator (s : string) (c : ascii) :
  Forall (fun p => count_char c p = 0%nat) (split s c).
Proof.
  induction s as [|x s IH]; simpl.
  - repeat constructor.
  - destruct (Ascii.eqb x c) eqn:E.
    + constructor; [reflexivity | exact IH].
    + destruct (split s c) as [|piece pieces]; [repeat constructor; simpl; now rewrite E|].
      inversion IH as [|? ? Hp Hps]; subst.
      constructor; [simpl; now rewrite E | exact Hps].
Qed.

Lemma count_char_app (c : ascii) (a b : string) :
  count_char c (a +:+ b) = (count_char c a + count_char c b)%nat.
Proof.
  induction a as [|x a IH]; simpl; [reflexivity|]. rewrite IH. lia.
Qed.

Lemma count_char_In (c : ascii) (s : string) :
  count_char c s = 0%nat <-> ~ In c (list_ascii_of_string s).
Proof.
  induction s as [|x s IH]; simpl; [tauto|].
  destruct (Ascii.eqb x c) eqn:E.
  - apply Ascii.eqb_eq in E. subst. split; [discriminate | intros Hn; elim Hn; now left].
  - apply Ascii.eqb_neq in E. simpl. rewrite IH. tauto.
Qed.

Lemma length_app_string (a b : string) :
  String.length (a +:+ b) = (String.length a + String.length b)%nat.
Proof. induction a as [|x a IH]; simpl; [reflexivity | now rewrite IH]. Qed.

Lemma substring_all (s : string) : String.substring 0 (String.length s) s = s.
Proof. induction s as [|x s IH]; simpl; [reflexivity | now rewrite IH]. Qed.

Lemma substring_prefix (a b : string) :
  String.substring 0 (String.length a) (a +:+ b) = a.
Proof.
  induction a as [|x a IH]; simpl; [now destruct b | now rewrite IH].
Qed.

Lemma substring_suffix (a b : string) :
  String.substring (String.length a) (String.length b) (a +:+ b) = b.
Proof. induction a as [|x a IH]; simpl; [apply substring_all | exact IH]. Qed.

(** [s.slice(0, i)] and [s.slice(i)] at the end of a prefix. *)
Lemma slice_prefix (a b : string) :
  slice (a +:+ b) 0 (Some (Z.of_nat (String.length a))) = a.
Proof.
  unfold slice. rewrite length_app_string.
  replace (0 <? 0) with false by reflexivity.
  replace (Z.of_nat (String.length a) <? 0) with false
    by (symmetry; apply Z.ltb_ge; lia).
  rewrite !Z.min_l by lia. rewrite Z.sub_0_r, Z.max_l by lia.
  rewrite Nat2Z.id. apply substring_prefix.
Qed.

Lemma slice_suffix (a b : string) :
  slice (a +:+ b) (Z.of_nat (String.length a)) None = b.
Proof.
  unfold slice. rewrite length_app_string.
  replace (Z.of_nat (String.length a) <? 0) with false by (symmetry; apply Z.ltb_ge; lia).
  rewrite Z.min_l by lia. rewrite Nat2Z.id.
  replace (Z.to_nat _) with (String.length b) by lia.
  apply substring_suffix.
Qed.

(** [indexOf] finds the first occurrence, or gives -1 when there is
    none. *)
Lemma indexOf_from_spec (c : ascii) (s : string) (k : Z) :
  (count_char c s = 0%nat /\ indexOf_from c s k = -1)
  \/ exists pre post,
       s = pre +:+ String c post /\ count_char c pre = 0%nat
       /\ indexOf_from c s k = k + Z.of_nat (String.length pre).
Proof.
  revert k. induction s as [|x s IH]; intros k; simpl; [now left|].
  destruct (Ascii.eqb x c) eqn:E.
  - right. apply Ascii.eqb_eq in E. subst. exists "", s. simpl.
    repeat split. lia.
  - destruct (IH (k + 1)) as [[Hc Hi] | (pre & post & -> & Hc & Hi)].
    + left. now split.
    + right. exists (String x pre), post. simpl. rewrite E.
      repeat split; [exact Hc | rewrite Hi; lia].
Qed.

(** ** [trim] *)

Lemma strip_prefix_In (p l rest : list ascii) (x : ascii) :
  strip_prefix p l = Some rest -> In x rest -> In x l.
Proof.
  revert l. induction p as [|b p IH]; intros l; simpl.
  - intros [= ->]. tauto.
  - destruct l as [|a l]; [discriminate|].
    destruct (Ascii.eqb a b); [|discriminate].
    intros Hs Hx. right. eauto.
Qed.

Lemma strip_one_In (ws : list (list ascii)) (l rest : list ascii) (x : ascii) :
  strip_one ws l = Some rest -> In x rest -> In x l.
Proof.
  induction ws as [|w ws IH]; simpl; [discriminate|].
  destruct (strip_prefix w l) eqn:E.
  - intros [= ->]. eauto using strip_prefix_In.
  - exact IH.
Qed.

Lemma strip_all_In (fuel : nat) (ws : list (list ascii)) (l : list ascii)
    (x : ascii) :
  In x (strip_all fuel ws l) -> In x l.
Proof.
  revert l. induction fuel as [|fuel IH]; intros l; simpl; [tauto|].
  destruct (strip_one ws l) eqn:E; [|tauto].
  intros Hx. eauto using strip_one_In.
Qed.

(** [trim] only removes characters. *)
Lemma trim_In (s : string) (x : ascii) :
  In x (list_ascii_of_string (trim s)) -> In x (list_ascii_of_string s).
Proof.
  unfold trim. rewrite list_ascii_of_string_of_list_ascii.
  intros Hx. apply in_rev in Hx. apply strip_all_In in Hx.
  apply in_rev in Hx. now apply strip_all_In in Hx.
Qed.

Lemma trim_count_char (s : string) (c : ascii) :
  count_char c s = 0%nat -> count_char c (trim s) = 0%nat.
Proof.
  rewrite !count_char_In. intros Hn Hx. apply Hn. now apply trim_In.
Qed.

(** ** [parseCookies] *)

(** The two ways one piece of the header is handled: without an equals
    sign it is dropped; otherwise it is cut at its first equals sign. *)
Lemma parse_pair_cases (out : gmap string string) (p : string) :
  (count_char "=" p = 0%nat /\ parse_pair out p = out)
  \/ exists pre post,
       p = pre +:+ String "=" post /\ count_char "=" pre = 0%nat
       /\ parse_pair out p =
          if String.eqb (trim pre) "" then out
          else set_key (trim pre) (trim post) out.
Proof.
  unfold parse_pair, indexOf.
  destruct (indexOf_from_spec "=" p 0) as [[Hc ->] | (pre & post & Hp & Hc & Hi)].
  - left. now split.
  - right. exists pre, post. split; [exact Hp|]. split; [exact Hc|].
    rewrite Hi. replace (0 + Z.of_nat (String.length pre) >? -1) with true
      by (symmetry; apply Z.gtb_lt; lia).
    rewrite Z.add_0_l. subst p. rewrite slice_prefix.
    replace (Z.of_nat (String.length pre) + 1)
      with (Z.of_nat (String.length (pre +:+ "="))) by (rewrite length_app_string; simpl; lia).
    replace (pre +:+ String "=" post) with ((pre +:+ "=") +:+ post).
    + rewrite slice_suffix. now destruct (String.eqb (trim pre) "").
    + clear. induction pre as [|x pre IH]; [reflexivity|].
      change (String x ((pre +:+ "=") +:+ post)
              = String x (pre +:+ String "=" post)).
      now rewrite IH.
Qed.

Lemma lookup_set_key (k v k' : string) (out : gmap string string) :
  set_key k v out !! k' =
    if String.eqb k "__proto__" then out !! k'
    else if String.eqb k k' then Some v else out !! k'.
Proof.
  unfold set_key. destruct (String.eqb k "__proto__"); [reflexivity|].
  destruct (String.eqb k k') eqn:E.
  - apply String.eqb_eq in E. subst. apply lookup_insert_eq.
  - apply String.eqb_neq in E. now apply lookup_insert_ne.
Qed.

Lemma parseCookies_append (h p : string) :
  count_char ";" p = 0%nat ->
  parseCookies (Some (h +:+ String ";" p))
  = parse_pair (parseCookies (Some h)) p.
Proof.
  intros Hp. unfold parseCookies. simpl.
  rewrite split_app, fold_left_app, (split_no_separator p ";" Hp). reflexivity.
Qed.

Lemma parse_pair_entries (out : gmap string string) (p : string) :
  count_char ";" p = 0%nat ->
  (forall k v, out !! k = Some v -> cookie_entry_ok k v) ->
  forall k v, parse_pair out p !! k = Some v -> cookie_entry_ok k v.
Proof.
  intros Hp Hout k v.
  destruct (parse_pair_cases out p) as [[_ ->] | (pre & post & -> & Hc & ->)];
    [apply Hout|].
  destruct (String.eqb (trim pre) "") eqn:Ee; [apply Hout|].
  rewrite lookup_set_key.
  destruct (String.eqb (trim pre) "__proto__") eqn:Ep; [apply Hout|].
  destruct (String.eqb (trim pre) k) eqn:Ek; [|apply Hout].
  intros [= <-]. apply String.eqb_eq in Ek. subst k.
  apply String.eqb_neq in Ee, Ep.
  rewrite count_char_app in Hp. simpl in Hp.
  repeat split; try assumption; apply trim_count_char; try assumption; lia.
Qed.

Lemma fold_parse_pair_entries (pieces : list string) (out : gmap string string) :
  Forall (fun p => count_char ";" p = 0%nat) pieces ->
  (forall k v, out !! k = Some v -> cookie_entry_ok k v) ->
  forall k v, fold_left parse_pair pieces out !! k = Some v ->
              cookie_entry_ok k v.
Proof.
  revert out. induction pieces as [|p pieces IH]; intros out Hp Hout; simpl;
    [exact Hout|].
  inversion Hp; subst. apply IH; [assumption|].
  now apply parse_pair_entries.
Qed.

Lemma cut_unique (c : ascii) (a a' b b' : string) :
  count_char c a = 0%nat -> count_char c a' = 0%nat ->
  a +:+ String c b = a' +:+ String c b' -> a = a' /\ b = b'.
Proof.
  revert a'. induction a as [|x a IH]; intros [|x' a']; simpl.
  - intros _ _ [= ->]. now split.
  - intros _ Hc [= <- _]. rewrite Ascii.eqb_refl in Hc. discriminate.
  - intros Hc _ [= -> _]. rewrite Ascii.eqb_refl in Hc. discriminate.
  - intros Hc Hc'.
    change (String x (a +:+ String c b) = String x' (a' +:+ String c b')
            -> String x a = String x' a' /\ b = b').
    intros [= -> E].
    destruct (Ascii.eqb x' c); [discriminate|].
    destruct (IH a' Hc Hc' E) as [-> ->]. now split.
Qed.

(** X1. Every entry of the map [parseCookies] builds has a name that is
    not empty, is not [__proto__] and holds neither an equals sign nor a
    semicolon, and a value that holds no semicolon. *)
Theorem parseCookies_entries_are_clean
    (header : option string) (k v : string) :
  parseCookies header !! k = Some v ->
  k <> "" /\ k <> "__proto__" /\ count_char "=" k = 0%nat
  /\ count_char ";" k = 0%nat /\ count_char ";" v = 0%nat.
Proof.
  unfold parseCookies.
  apply (fold_parse_pair_entries (split (default "" header) ";") ∅).
  - apply split_pieces_no_separator.
  - intros k' v' Hl. rewrite lookup_empty in Hl. discriminate.
Qed.

Lemma parseCookies_entries_run :
  parseCookies (Some "theme=dark; admin_session= e30.e30 ; lang=en=US; =x; y")
  !! "lang" = Some "en=US"
  /\ "lang" <> "" /\ "lang" <> "__proto__" /\ count_char "=" "lang" = 0%nat
  /\ count_char ";" "lang" = 0%nat /\ count_char ";" "en=US" = 0%nat.
Proof.
  assert (Hl : parseCookies
                 (Some "theme=dark; admin_session= e30.e30 ; lang=en=US; =x; y")
               !! "lang" = Some "en=US") by (vm_compute; reflexivity).
  split; [exact Hl|].
  exact (parseCookies_entries_are_clean _ "lang" "en=US" Hl).
Defined.

(** X2. The pairs of a cookie header are read from left to right and a
    later pair replaces an earlier one of the same name: whatever the
    header holds before it, a last pair [name=value] gives the trimmed
    [name] the trimmed [value]. *)
Theorem parseCookies_last_pair_wins (h name value : string) :
  count_char ";" name = 0%nat ->
  count_char "=" name = 0%nat ->
  count_char ";" value = 0%nat ->
  trim name <> "" ->
  trim name <> "__proto__" ->
  parseCookies (Some (h +:+ ";" +:+ name +:+ "=" +:+ value)) !! trim name
  = Some (trim value).
Proof.
  intros Hn He Hv Hne Hp.
  change (h +:+ ";" +:+ name +:+ "=" +:+ value)
    with (h +:+ String ";" (name +:+ String "=" value)).
  rewrite parseCookies_append
    by (rewrite count_char_app; simpl; lia).
  destruct (parse_pair_cases (parseCookies (Some h)) (name +:+ String "=" value))
    as [[Hc _] | (pre & post & Hcut & Hc & ->)].
  - rewrite count_char_app in Hc. simpl in Hc. lia.
  - destruct (cut_unique "=" name pre value post He Hc Hcut) as [<- <-].
    apply String.eqb_neq in Hne, Hp. rewrite Hne, lookup_set_key, Hp.
    now rewrite String.eqb_refl.
Qed.

Lemma parseCookies_last_pair_run :
  parseCookies
    (Some "admin_session=old.sig; theme=dark; admin_session= e30.e30 ")
  !! "admin_session"
  = Some "e30.e30".
Proof.
  apply (parseCookies_last_pair_wins "admin_session=old.sig; theme=dark"
           " admin_session" " e30.e30 ");
    try (vm_compute; reflexivity); vm_compute; discriminate.
Defined.

(** ** What [readSession] returns *)

Section SessionSoundness.

Context `{Platform}.

(** X3. Whatever [readSession] returns other than [null] is the parsed
    payload of a cookie that splits into two parts, whose second part is
    the HMAC of the first under a configured, non-empty secret, and
    whose [exp] is a non-zero number not below the current time in
    seconds; in particular a token with another signature is never
    accepted. *)
Theorem readSession_returns_only_verified_payloads
    (env : Env) (now : Z) (req : Request) (v : JSValue) :
  readSession env now req = Ret v ->
  v <> JNull ->
  exists token b64 sig secret props n,
    parseCookies (req_header req "cookie") !! "admin_session" = Some token
    /\ split token "." = [b64; sig]
    /\ b64 <> ""
    /\ ADMIN_JWT_SECRET env = Some secret /\ secret <> ""
    /\ sig = hmac_sha256_base64url secret b64
    /\ JSON_parse (base64url_decode b64) = Ret v
    /\ v = JObj props
    /\ own_prop "exp" props = JNum n
    /\ truthy (JNum n) = true
    /\ num_lt n (num_of_Z (now / 1000)) = false.
Proof.
  unfold readSession. intros Hr Hv.
  destruct (parseCookies (req_header req "cookie") !! "admin_session")
    as [token|] eqn:Hc; [|congruence].
  destruct (String.eqb token ""); [congruence|].
  destruct (ADMIN_JWT_SECRET env) as [secret|] eqn:Hs; simpl in Hr; [|congruence].
  destruct (String.eqb secret "") eqn:Hse; [congruence|].
  destruct (split token ".") as [|b64 [|sig [|x rest]]] eqn:Hsplit;
    simpl in Hr; try congruence.
  destruct (String.eqb b64 "") eqn:Hb; simpl in Hr; [congruence|].
  destruct (String.eqb sig "") eqn:Hsig; simpl in Hr; [congruence|].
  destruct (String.eqb sig (hmac_sha256_base64url secret b64)) eqn:Hmac;
    simpl in Hr; [|congruence].
  unfold read_payload, mbind, Exc_bind, JS.bind in Hr.
  destruct (JSON_parse (base64url_decode b64)) as [payload|m] eqn:Hparse;
    simpl in Hr; [|congruence].
  destruct (get_prop payload "exp") as [e|m] eqn:Hexp; simpl in Hr; [|congruence].
  destruct (truthy e) eqn:Ht; simpl in Hr; [|congruence].
  destruct e as [| | |n| | | |]; simpl in Hr; try congruence.
  destruct (num_lt n (num_of_Z (now / 1000))) eqn:Hlt; simpl in Hr; [congruence|].
  injection Hr as <-.
  destruct payload as [| | | | | |props|]; simpl in Hexp; try discriminate Hexp.
  exists token, b64, sig, secret, props, n.
  apply String.eqb_neq in Hb, Hse. apply String.eqb_eq in Hmac.
  injection Hexp as Hexp. repeat (split; [assumption || reflexivity|]).
  assumption.
Qed.

End SessionSoundness.

Lemma readSession_verified_run :
  exists token b64 sig secret props n,
    parseCookies
      (req_header
         (Scenario.with_cookie
            (Scenario.token_of "jwt-secret" Scenario.payload_valid)) "cookie")
    !! "admin_session" = Some token
    /\ split token "." = [b64; sig]
    /\ b64 <> ""
    /\ ADMIN_JWT_SECRET Scenario.env = Some secret /\ secret <> ""
    /\ sig = hmac_sha256_base64url secret b64
    /\ JSON_parse (base64url_decode b64) = Ret Scenario.payload_valid
    /\ Scenario.payload_valid = JObj props
    /\ own_prop "exp" props = JNum n
    /\ truthy (JNum n) = true
    /\ num_lt n (num_of_Z (Scenario.now / 1000)) = false.
Proof.
  apply (readSession_returns_only_verified_payloads Scenario.env Scenario.now
           (Scenario.with_cookie
              (Scenario.token_of "jwt-secret" Scenario.payload_valid))
           Scenario.payload_valid).
  - vm_compute. reflexivity.
  - discriminate.
Defined.

(** ** Redirect targets and logout *)

Section Further.

Context `{Platform}.

(** X4. Whatever the request holds, the [state] the start handler sends
    to the identity provider and the destination the callback chooses
    begin with a slash: neither is ever a URL with a scheme. *)
Theorem redirect_targets_start_with_a_slash (req : Request) (state : JSValue) :
  startsWith (start_state req) "/" = true
  /\ startsWith (callback_dest state) "/" = true.
Proof.
  split.
  - rewrite start_state_cases.
    destruct (req_query req "from") as [| | | |s| | |]; try reflexivity.
    destruct (startsWith s "/") eqn:E; [exact E | reflexivity].
  - unfold callback_dest.
    destruct state as [| | | |s| | |]; try reflexivity.
    destruct (startsWith s "/") eqn:E; [exact E | reflexivity].
Qed.

(** X5. The logout handler returns for every request and sets exactly
    one cookie: [admin_session] with the empty value and Max-Age 0, under
    the name, path and flags of the cookie the callback mints; to a POST
    the answer is 200 with [{ ok: true }]; and a request that sends the
    cleared cookie back has no session. *)
Theorem logout_clears_the_session_cookie (env : Env) (req : Request) :
  let cleared :=
    {| cookie_name := "admin_session"; cookie_value := "";
       cookie_options :=
         {| httpOnly := true; sameSite := "lax";
            secure := String.eqb (toLowerCase (or_empty (NODE_ENV env)))
                        "production";
            path := "/"; maxAge := Some 0 |} |} in
  (exists r, logout env req fresh = (r, Ret tt)
             /\ respond env req (logout env req) = r
             /\ cookies r = [cleared])
  /\ (method req = "POST" ->
      respond env req (logout env req)
      = {| status := 200; cookies := [cleared];
           body := Json (JObj [("ok", JBool true)]) |})
  /\ (forall json,
        cookie_name (minted_cookie env json) = cookie_name cleared
        /\ path (cookie_options (minted_cookie env json))
           = path (cookie_options cleared)
        /\ httpOnly (cookie_options (minted_cookie env json))
           = httpOnly (cookie_options cleared)
        /\ sameSite (cookie_options (minted_cookie env json))
           = sameSite (cookie_options cleared)
        /\ secure (cookie_options (minted_cookie env json))
           = secure (cookie_options cleared))
  /\ (forall now req',
        req_header req' "cookie"
        = Some (cookie_name cleared +:+ "=" +:+ cookie_value cleared) ->
        readSession env now req' = Ret JNull).
Proof.
  cbv zeta. split; [|split; [|split]].
  - eexists. split; [reflexivity|]. split; [reflexivity|].
    unfold logout, res_cookie, res_json, mbind, Handler_bind, hbind.
    cbn -[sent]. now rewrite (proj2 (sent_status _ _)).
  - intros Hm. unfold respond, htry, logout, res_cookie, res_json, mbind,
      Handler_bind, hbind. cbn -[sent].
    unfold sent, req_fresh. cbn. rewrite Hm. reflexivity.
  - intros json. repeat split.
  - intros now req' Hc. unfold readSession. rewrite Hc.
    replace (parseCookies (Some ("admin_session" +:+ "=" +:+ ""))
             !! "admin_session") with (Some "")
      by (vm_compute; reflexivity).
    reflexivity.
Qed.

End Further.

(** A logout, and the cookie header of a browser that kept the cleared
    cookie. *)
Lemma logout_cleared_run :
  respond Scenario.env {| method := "POST"; headers := ∅; query := ∅ |}
    (logout Scenario.env {| method := "POST"; headers := ∅; query := ∅ |})
  = {| status := 200;
       cookies :=
         [{| cookie_name := "admin_session"; cookie_value := "";
             cookie_options :=
               {| httpOnly := true; sameSite := "lax"; secure := false;
                  path := "/"; maxAge := Some 0 |} |}];
       body := Json (JObj [("ok", JBool true)]) |}
  /\ readSession Scenario.env Scenario.now (Scenario.with_cookie "")
     = Ret JNull.
Proof.
  split.
  - exact (proj1 (proj2 (logout_clears_the_session_cookie Scenario.env
                           {| method := "POST"; headers := ∅; query := ∅ |}))
             eq_refl).
  - apply (proj2 (proj2 (proj2 (logout_clears_the_session_cookie Scenario.env
             {| method := "POST"; headers := ∅; query := ∅ |})))).
    vm_compute. reflexivity.
Defined.
